(** * Reading-level calculator: a shallow embedding of [readingEaseLevel.py]

    The script normalises a text, counts syllables, words and sentences,
    computes the Flesch Reading Ease and Flesch-Kincaid Grade Level scores
    and ranks the most frequent words.  Every function of the script is
    embedded below under its own name and the properties of the
    specification are stated and proved about these embeddings.

    Conventions.
    - A Python [str] is a Rocq [string]; its characters are the code points
      below 256 (ASCII and Latin-1), which covers [string.punctuation], the
      whitespace classes and the case folding the script relies on.
    - A Python [int] is a [Z]; a Python [float] is a binary64 [float].
    - The two files the script touches (the input text and [report.csv]) and
      the console are explicit values threaded through the functions. *)

From Stdlib Require Import ZArith List Bool Lia Permutation Sorted.
From Stdlib Require Import Ascii String DecimalString.
From Stdlib Require Import PrimFloat SpecFloat FloatOps.
Import ListNotations.

Open Scope string_scope.

(* ================================================================== *)
(** * Python built-ins on [str] *)
(* ================================================================== *)

Module PyStr.

(** Code point of a character. *)
Definition ord (c : ascii) : N := N_of_ascii c.

(** [str.isspace] on one character, i.e. the characters [str.split()] and
    [str.rstrip()] treat as whitespace: TAB..CR, FS..US, SPACE, NEL, NBSP. *)
Definition isspace (c : ascii) : bool :=
  let n := ord c in
  ((9 <=? n) && (n <=? 13) || (28 <=? n) && (n <=? 32)
   || (n =? 133) || (n =? 160))%N.

(** [str.lower] on one character: A-Z and the Latin-1 capitals
    (all of 0xC0..0xDE but the multiplication sign 0xD7) move up by 32. *)
Definition lower_char (c : ascii) : ascii :=
  let n := ord c in
  if ((65 <=? n) && (n <=? 90)
      || (192 <=? n) && (n <=? 222) && negb (n =? 215))%N
  then ascii_of_N (n + 32) else c.

(** [s.lower()] *)
Fixpoint lower (s : string) : string :=
  match s with
  | EmptyString => EmptyString
  | String c r => String (lower_char c) (lower r)
  end.

(** [s.rstrip()]: drop the trailing whitespace. *)
Fixpoint rstrip (s : string) : string :=
  match s with
  | EmptyString => EmptyString
  | String c r =>
      match rstrip r with
      | EmptyString => if isspace c then EmptyString else String c EmptyString
      | r' => String c r'
      end
  end.

(** [s.startswith(p)] *)
Definition startswith (p s : string) : bool := prefix p s.

(** [s.endswith(p)] *)
Fixpoint endswith (p s : string) : bool :=
  match s with
  | EmptyString => p =? EmptyString
  | String _ r => (p =? s) || endswith p r
  end.

(** The scan shared by [count] and [replace]: Python looks for the pattern
    from left to right and resumes right after each match, so matches never
    overlap.  [skip] is the number of characters of the current match that
    are still to be stepped over. *)
Fixpoint count_from (sub : string) (skip : nat) (s : string) : nat :=
  match s with
  | EmptyString => 0
  | String _ r =>
      match skip with
      | S k => count_from sub k r
      | O => if startswith sub s
             then S (count_from sub (length sub - 1) r)
             else count_from sub 0 r
      end
  end.

(** [s.count(sub)]; the empty pattern matches between any two characters
    and at both ends. *)
Definition count (sub s : string) : nat :=
  match sub with
  | EmptyString => S (length s)
  | _ => count_from sub 0 s
  end.

Fixpoint replace_from (old new : string) (skip : nat) (s : string) : string :=
  match s with
  | EmptyString => EmptyString
  | String c r =>
      match skip with
      | S k => replace_from old new k r
      | O => if startswith old s
             then new ++ replace_from old new (length old - 1) r
             else String c (replace_from old new 0 r)
      end
  end.

Fixpoint intersperse (new s : string) : string :=
  match s with
  | EmptyString => new
  | String c r => new ++ String c (intersperse new r)
  end.

(** [s.replace(old, new)] *)
Definition replace (old new s : string) : string :=
  match old with
  | EmptyString => intersperse new s
  | _ => replace_from old new 0 s
  end.

(** [s.split()]: the maximal runs of non-whitespace characters.  [cur] is
    the run being read. *)
Fixpoint split_from (cur : string) (s : string) : list string :=
  match s with
  | EmptyString =>
      match cur with EmptyString => [] | _ => [cur] end
  | String c r =>
      if isspace c
      then match cur with
           | EmptyString => split_from EmptyString r
           | _ => cur :: split_from EmptyString r
           end
      else split_from (cur ++ String c EmptyString) r
  end.

Definition split (s : string) : list string := split_from EmptyString s.

(** [x in l] for a list of strings. *)
Definition mem (x : string) (l : list string) : bool :=
  existsb (String.eqb x) l.

(** [c in s] for a character [c] of a string [s]. *)
Fixpoint contains_char (c : ascii) (s : string) : bool :=
  match s with
  | EmptyString => false
  | String d r => Ascii.eqb c d || contains_char c r
  end.

(** [str(n)] and ["%d" % n] for an integer. *)
Definition str_int (n : Z) : string := NilEmpty.string_of_int (Z.to_int n).

End PyStr.

(* ================================================================== *)
(** * The script *)
(* ================================================================== *)

Definition SENTENCE_MARKER : string := "XXX".

Definition TOP_N_WORDS : Z := 10.

(** ** Console *)

(** One argument of a [print] call. *)
Inductive pyarg : Type :=
| AStr (s : string)
| AInt (n : Z)
| ADict (d : list (string * Z)).

(** The console is the list of [print] calls made so far, each with its
    arguments in order. *)
Definition console : Type := list (list pyarg).

(** ** syllablesPerWord *)

Definition diphtohongList : list string :=
  ["oi"; "oy"; "ou"; "ow"; "ai"; "au"; "ay"; "aw"; "oo"; "ie"; "ea"; "ee"].

Definition vowelList : list string := ["a"; "e"; "i"; "o"; "u"; "y"].

Definition specialCases : list string :=
  ["recipe"; "apostrophe"; "catastrophe"; "acne"; "epitome"; "karate";
   "sesame"; "posse"; "vigilante"; "cliche"; "fiance"; "resume"; "middle";
   "the"].

(** Step (1), on the lowercased word: the loop over [vowelList]. *)
Definition count_vowels (word : string) : Z :=
  fold_left (fun wordVowels nextVowel =>
               wordVowels + Z.of_nat (PyStr.count nextVowel word))%Z
            vowelList 0%Z.

(** Step (2): the silent [e]. *)
Definition silent_e (word : string) (wordVowels : Z) : Z :=
  if PyStr.endswith "e" word && negb (PyStr.mem word specialCases)
  then if negb (wordVowels =? 0)%Z then (wordVowels - 1)%Z else wordVowels
  else wordVowels.

(** Step (3): the loop over [diphtohongList]. *)
Definition drop_diphthongs (word : string) (wordVowels : Z) : Z :=
  fold_left (fun wordVowels diphthong =>
               wordVowels - Z.of_nat (PyStr.count diphthong word))%Z
            diphtohongList wordVowels.

(** The function with its three progress messages: the value returned and
    the lines printed. *)
Definition syllablesPerWord_io (word : string) : Z * console :=
  let word := PyStr.lower word in
  let v1 := count_vowels word in
  let out1 := [AStr "(1) total vowels in"; AStr word; AStr ":"; AInt v1] in
  let v2 := silent_e word v1 in
  let out2 := [AStr "(2) after silent e check"; AStr word; AStr ":"; AInt v2] in
  let v3 := drop_diphthongs word v2 in
  let out3 :=
    [AStr "(3) after removing diphthongs: "; AStr word; AStr ":"; AInt v3] in
  (if (v3 =? 0)%Z then 1%Z else v3, [out1; out2; out3]).

Definition syllablesPerWord (word : string) : Z :=
  fst (syllablesPerWord_io word).

(** ** remove_punctuation *)

(** [string.punctuation], the 32 ASCII punctuation characters. *)
Definition punctuation : string :=
  "!" ++ String (ascii_of_nat 34) "#$%&'()*+,-./:;<=>?@[\]^_`{|}~".

Fixpoint remove_punctuation_loop (s_without_punct s : string) : string :=
  match s with
  | EmptyString => s_without_punct
  | String letter r =>
      remove_punctuation_loop
        (if negb (PyStr.contains_char letter punctuation)
         then s_without_punct ++ String letter EmptyString
         else s_without_punct)
        r
  end.

Definition remove_punctuation (s : string) : string :=
  remove_punctuation_loop EmptyString s.

(** ** getData *)

(** The body of the loop over the lines of the input file. *)
Definition normalize_line (nextLine : string) : string :=
  let nextLine := PyStr.rstrip nextLine in
  let nextLine := PyStr.lower nextLine in
  let nextLine := PyStr.replace "mr." "mr" nextLine in
  let nextLine := PyStr.replace "mrs." "mrs" nextLine in
  let nextLine := PyStr.replace "ms." "ms" nextLine in
  let nextLine := PyStr.replace "dr." "dr" nextLine in
  let nextLine := PyStr.replace "st." "st" nextLine in
  let nextLine := PyStr.replace "prof." "prof" nextLine in
  let MARK := " " ++ SENTENCE_MARKER ++ " " in
  let nextLine := PyStr.replace "." MARK nextLine in
  let nextLine := PyStr.replace "?" MARK nextLine in
  let nextLine := PyStr.replace "!" MARK nextLine in
  nextLine.

(** [getData] once the file is open: [INPUT] is the sequence of its lines,
    each with its line break if it has one.  (Asking for the name of an
    existing file comes before and does not touch the text.) *)
Definition getData (INPUT : list string) : string :=
  fold_left (fun fileAsOneString nextLine =>
               fileAsOneString ++ normalize_line nextLine)
            INPUT EmptyString.

(** ** Corpus metrics *)

Definition getNumberOfTotalWords (s : string) : Z :=
  let withOutDelimiters := PyStr.replace SENTENCE_MARKER " " s in
  let wordList := PyStr.split withOutDelimiters in
  Z.of_nat (List.length wordList).

Definition getNumberOfTotalSentences (s : string) : Z :=
  Z.of_nat (PyStr.count SENTENCE_MARKER s).

Definition getNumberOfTotalSyllables_io (s : string) : Z * console :=
  let withOutDelimiters := PyStr.replace SENTENCE_MARKER " " s in
  let words := PyStr.split withOutDelimiters in
  fold_left (fun '(totalSyllables, out) word =>
               let '(n, printed) := syllablesPerWord_io word in
               ((totalSyllables + n)%Z, (out ++ printed)%list))
            words (0%Z, []).

Definition getNumberOfTotalSyllables (s : string) : Z :=
  fst (getNumberOfTotalSyllables_io s).

(** ** Readability formulas *)

(** What the formulas return: the integer [0] of the guard or a float. *)
Inductive pynum : Type :=
| PyInt (n : Z)
| PyFloat (x : float).

(** [float(n)]: the binary64 value nearest to [n]. *)
Definition float_of_int (n : Z) : float :=
  SF2Prim (binary_normalize prec emax n 0 false).

(** [a / b] on integers; [None] is [ZeroDivisionError].  The model is that
    of Python on operands below [2^53] in absolute value, as the counts of
    any text are: there both conversions are exact and the quotient is
    rounded once.  It is not meant beyond: Python rounds the exact quotient
    of larger operands once, where this rounds each operand first, and
    raises [OverflowError] when the quotient exceeds the floats, where this
    gives an infinity.  That a formula raises no exception on
    arbitrary integers is therefore stated for operands below [2^53]. *)
Definition truediv (a b : Z) : option float :=
  if (b =? 0)%Z then None
  else Some (float_of_int a / float_of_int b)%float.

#[warnings="-inexact-float"] Definition compute_FleschReadingEase
  (totalSyllables totalWords totalSentences : Z) : option pynum :=
  if (totalSyllables =? 0)%Z || (totalWords =? 0)%Z || (totalSentences =? 0)%Z
  then Some (PyInt 0)
  else
    match truediv totalWords totalSentences,
          truediv totalSyllables totalWords with
    | Some wps, Some spw =>
        Some (PyFloat (206.835 - (1.015 * wps) - (84.6 * spw))%float)
    | _, _ => None
    end.

#[warnings="-inexact-float"] Definition compute_FleschKincaidGradeLevel
  (totalSyllables totalWords totalSentences : Z) : option pynum :=
  if (totalSyllables =? 0)%Z || (totalWords =? 0)%Z || (totalSentences =? 0)%Z
  then Some (PyInt 0)
  else
    match truediv totalWords totalSentences,
          truediv totalSyllables totalWords with
    | Some wps, Some spw =>
        Some (PyFloat ((0.39 * wps) + (11.8 * spw) - 15.59)%float)
    | _, _ => None
    end.

(** ** Number formatting *)

(** Nearest integer to [n / d] for [0 <= n] and [0 < d], ties to even. *)
Definition div_half_even (n d : Z) : Z :=
  let q := (n / d)%Z in
  let r := (n mod d)%Z in
  if (2 * r <? d)%Z then q
  else if (d <? 2 * r)%Z then (q + 1)%Z
  else if Z.even q then q else (q + 1)%Z.

(** The magnitude of a finite float in hundredths, rounded as the [.2f]
    conversion rounds it: from the exact binary value, ties to even. *)
Definition hundredths (m : positive) (e : Z) : Z :=
  if (0 <=? e)%Z then (100 * Zpos m * 2 ^ e)%Z
  else div_half_even (100 * Zpos m) (2 ^ (- e)).

Definition two_digits (n : Z) : string :=
  (if (n <? 10)%Z then "0" else "") ++ PyStr.str_int n.

Definition sign_text (negative : bool) : string :=
  if negative then "-" else "".

(** The digits of the [.2f] conversion, without padding. *)
Definition fixed2 (x : float) : string :=
  match Prim2SF x with
  | S754_zero s => sign_text s ++ "0.00"
  | S754_infinity s => sign_text s ++ "inf"
  | S754_nan => "nan"
  | S754_finite s m e =>
      let h := hundredths m e in
      sign_text s ++ PyStr.str_int (h / 100) ++ "." ++ two_digits (h mod 100)
  end.

Fixpoint spaces (n : nat) : string :=
  match n with
  | O => EmptyString
  | S k => String " " (spaces k)
  end.

Definition to_float (v : pynum) : float :=
  match v with
  | PyInt n => float_of_int n
  | PyFloat x => x
  end.

(** ["%<width>.2f" % v] *)
Definition format_f2 (width : nat) (v : pynum) : string :=
  let digits := fixed2 (to_float v) in
  spaces (width - length digits) ++ digits.

(** ** The report *)

(** The line break. *)
Definition nl : string := String (ascii_of_nat 10) EmptyString.

(** [report.csv]: [None] while the file does not exist, else its text. *)
Definition csv_file : Type := option string.

Definition file_text (f : csv_file) : string :=
  match f with
  | Some text => text
  | None => EmptyString
  end.

(** Opened with mode ["w"]: whatever the file held is replaced. *)
Definition printReadingLevelReport
  (totalSyllables totalWords totalSentences : Z)
  (readingEase readingLevel : pynum) (report : csv_file) : csv_file :=
  let CSV := EmptyString in
  let CSV :=
    CSV ++ "Syllables, Words, Sentences, Reading Ease, Reading Level" ++ nl in
  let CSV :=
    CSV ++ PyStr.str_int totalSyllables ++ "," ++ PyStr.str_int totalWords
        ++ "," ++ PyStr.str_int totalSentences
        ++ "," ++ format_f2 6 readingEase
        ++ "," ++ format_f2 6 readingLevel ++ nl in
  Some CSV.

(** ** printTopNwords *)

(** A [dict] from words to counts keeps its keys in insertion order, and an
    assignment to a key already present leaves the key where it is. *)
Definition dict : Type := list (string * Z).

Fixpoint dict_get (k : string) (d : dict) : option Z :=
  match d with
  | [] => None
  | (k', v) :: r => if (k =? k')%string then Some v else dict_get k r
  end.

Fixpoint dict_set (k : string) (v : Z) (d : dict) : dict :=
  match d with
  | [] => [(k, v)]
  | (k', v') :: r =>
      if (k =? k')%string then (k, v) :: r else (k', v') :: dict_set k v r
  end.

(** One turn of the loop that fills [WC]. *)
Definition count_step (WC : dict) (nextWord : string) : dict :=
  match dict_get nextWord WC with
  | Some n => dict_set nextWord (n + 1)%Z WC
  | None => dict_set nextWord 1%Z WC
  end.

Definition count_words (listOfWords : list string) : dict :=
  fold_left count_step listOfWords [].

(** [sorted(items, key=lambda x: x[1], reverse=True)]: Python's sort is
    stable, also under [reverse=True], so this is the stable sort by
    decreasing count.  An item goes in front of the first item whose count
    is not greater than its own. *)
Fixpoint insert_by_count (x : string * Z) (l : dict) : dict :=
  match l with
  | [] => [x]
  | y :: r =>
      if (snd y <=? snd x)%Z then x :: y :: r
      else y :: insert_by_count x r
  end.

Fixpoint sorted_by_count (items : dict) : dict :=
  match items with
  | [] => []
  | x :: r => insert_by_count x (sorted_by_count r)
  end.

(** The dictionary the function ranks and prints. *)
Definition ranking (s : string) : dict :=
  let s_sansPunct := remove_punctuation s in
  let listOfWords := PyStr.split s_sansPunct in
  sorted_by_count (count_words listOfWords).

Definition top_line (nextWord : string) (nextCount : Z) : string :=
  PyStr.str_int nextCount ++ "," ++ nextWord ++ nl.

(** One turn of the final loop; the state is the counter and the file. *)
Definition top_step (N : Z) (st : Z * string) (item : string * Z)
  : Z * string :=
  let '(count, CSV) := st in
  let '(nextWord, nextCount) := item in
  if negb (nextWord =? "XXX")%string && (count <=? N)%Z
  then ((count + 1)%Z, CSV ++ top_line nextWord nextCount)
  else (count, CSV).

(** Opened with mode ["a"]: the text goes after what the file holds. *)
Definition printTopNwords (s : string) (N : Z) (report : csv_file)
  : csv_file * console :=
  let CSV := file_text report in
  let CSV := CSV ++ nl ++ nl ++ "TOP WORDS HERE" ++ nl in
  let sorted_WC := ranking s in
  let out := [[ADict sorted_WC]] in
  let '(_, CSV) := fold_left (top_step N) sorted_WC (1%Z, CSV) in
  (Some CSV, out).

(** The entries the final loop writes, in the order it writes them: the
    same loop, recording the item instead of its line. *)
Definition emit_step (N : Z) (st : Z * dict) (item : string * Z)
  : Z * dict :=
  let '(count, written) := st in
  let '(nextWord, nextCount) := item in
  if negb (nextWord =? "XXX")%string && (count <=? N)%Z
  then ((count + 1)%Z, (written ++ [item])%list)
  else (count, written).

Definition emitted (s : string) (N : Z) : dict :=
  snd (fold_left (emit_step N) (ranking s) (1%Z, [])).

(** ** main *)

(** A run of [main] on the lines of the chosen file, from a given state of
    [report.csv]: the state of the file and the console at the end, or
    [None] if an exception escaped. *)
Definition main (INPUT : list string) (report : csv_file)
  : option (csv_file * console) :=
  let fileAsString := getData INPUT in
  let '(totalSyllables, out) := getNumberOfTotalSyllables_io fileAsString in
  let totalWords := getNumberOfTotalWords fileAsString in
  let totalSentences := getNumberOfTotalSentences fileAsString in
  if (0 <? totalWords)%Z && (0 <? totalSentences)%Z then
    match compute_FleschReadingEase totalSyllables totalWords totalSentences,
          compute_FleschKincaidGradeLevel
            totalSyllables totalWords totalSentences with
    | Some readingEase, Some readingLevel =>
        let report :=
          printReadingLevelReport totalSyllables totalWords totalSentences
                                  readingEase readingLevel report in
        let '(report, out_top) :=
          printTopNwords fileAsString TOP_N_WORDS report in
        let out :=
          (out ++ out_top ++
           [[AStr (nl ++ "total syllables: "); AInt totalSyllables];
            [AStr "total words:     "; AInt totalWords];
            [AStr "total sentences: "; AInt totalSentences];
            [AStr (nl ++ "Reading Ease:    " ++ format_f2 5 readingEase)];
            [AStr ("Grade Level:    " ++ format_f2 5 readingLevel)]])%list in
        Some (report, out)
    | _, _ => None
    end
  else
    Some (report,
          (out ++
           [[AStr "ERROR:  Can not compute metrics without words."]])%list).

(* ================================================================== *)
(** * The syllable estimator as the specification words it *)
(* ================================================================== *)

Module Reference.

(** How often the character [c] occurs in [s]. *)
Fixpoint occurrences_of_char (c : ascii) (s : string) : nat :=
  match s with
  | EmptyString => 0
  | String d r =>
      (if Ascii.eqb c d then 1 else 0) + occurrences_of_char c r
  end.

(** Step 2: the sum of the occurrence counts of [a, e, i, o, u, y]. *)
Definition vowels : list ascii := ["a"; "e"; "i"; "o"; "u"; "y"]%char.

Definition vowel_count (w : string) : Z :=
  Z.of_nat (list_sum (map (fun c => occurrences_of_char c w) vowels)).

(** The last character of a word. *)
Fixpoint last_char (s : string) : option ascii :=
  match s with
  | EmptyString => None
  | String c EmptyString => Some c
  | String _ r => last_char r
  end.

Definition ends_in_e (w : string) : bool :=
  match last_char w with
  | Some c => Ascii.eqb c "e"
  | None => false
  end.

Definition exceptions : list string :=
  ["recipe"; "apostrophe"; "catastrophe"; "acne"; "epitome"; "karate";
   "sesame"; "posse"; "vigilante"; "cliche"; "fiance"; "resume"; "middle";
   "the"].

(** Step 3: one less for a final [e], outside the exception list, when the
    running count is not zero. *)
Definition suppress_silent_e (w : string) (n : Z) : Z :=
  if ends_in_e w && negb (existsb (String.eqb w) exceptions)
     && negb (n =? 0)%Z
  then (n - 1)%Z else n.

(** Left-to-right scan for a pattern: after a match the scan resumes behind
    it.  [fuel] bounds the number of scan positions. *)
Fixpoint scan (fuel : nat) (p s : string) : nat :=
  match fuel with
  | O => 0
  | S fuel' =>
      match s with
      | EmptyString => 0
      | String _ r =>
          if prefix p s
          then S (scan fuel' p (substring (length p) (length s - length p) s))
          else scan fuel' p r
      end
  end.

Definition nonoverlapping (p s : string) : nat := scan (length s) p s.

Definition diphthongs : list string :=
  ["oi"; "oy"; "ou"; "ow"; "ai"; "au"; "ay"; "aw"; "oo"; "ie"; "ea"; "ee"].

(** Step 4: one less for every occurrence of every diphthong. *)
Definition collapse_diphthongs (w : string) (n : Z) : Z :=
  (n - Z.of_nat (list_sum (map (fun d => nonoverlapping d w) diphthongs)))%Z.

(** Step 5. *)
Definition floor_at_one (n : Z) : Z :=
  if (n <=? 0)%Z then 1%Z else n.

Definition syllables (word : string) : Z :=
  let w := PyStr.lower word in
  floor_at_one
    (collapse_diphthongs w (suppress_silent_e w (vowel_count w))).

End Reference.

(* ================================================================== *)
(** * Vocabulary of the proofs *)
(* ================================================================== *)

(** Number of positions of [s] at which [p] starts, overlaps included. *)
Fixpoint overlapping (p s : string) : nat :=
  match s with
  | EmptyString => 0
  | String _ r => (if prefix p s then 1 else 0) + overlapping p r
  end.

(** Total of a measure over a list of patterns. *)
Definition total (f : string -> nat) (l : list string) : nat :=
  list_sum (map f l).

(** The suffix of [s] from position [k]. *)
Definition drop (k : nat) (s : string) : string :=
  substring k (length s - k) s.

(** The characters of a string kept by a test, in order. *)
Fixpoint filter_chars (keep : ascii -> bool) (s : string) : string :=
  match s with
  | EmptyString => EmptyString
  | String c r =>
      if keep c then String c (filter_chars keep r) else filter_chars keep r
  end.

(** The substitutions of [normalize_line], i.e. what it does to a line
    once the line is stripped and lowercased. *)
Definition undot_and_mark (nextLine : string) : string :=
  let nextLine := PyStr.replace "mr." "mr" nextLine in
  let nextLine := PyStr.replace "mrs." "mrs" nextLine in
  let nextLine := PyStr.replace "ms." "ms" nextLine in
  let nextLine := PyStr.replace "dr." "dr" nextLine in
  let nextLine := PyStr.replace "st." "st" nextLine in
  let nextLine := PyStr.replace "prof." "prof" nextLine in
  let MARK := " " ++ SENTENCE_MARKER ++ " " in
  let nextLine := PyStr.replace "." MARK nextLine in
  let nextLine := PyStr.replace "?" MARK nextLine in
  let nextLine := PyStr.replace "!" MARK nextLine in
  nextLine.

(** No occurrence of [old] in [a ++ b] begins in [a] and ends in [b]. *)
Definition no_straddle (old a b : string) : Prop :=
  forall a1 a2, a = a1 ++ a2 -> a2 <> EmptyString ->
                prefix old (a2 ++ b) = true -> prefix old a2 = true.

(** The input of the worked example. *)
Definition example_line : string := "The cat sat. The dog ran!".

(** The tokens the frequency analysis counts. *)
Definition tokens (s : string) : list string :=
  PyStr.split (remove_punctuation s).

(** The distinct elements of a list in the order of their first
    appearance. *)
Fixpoint first_seen (l : list string) : list string :=
  match l with
  | [] => []
  | w :: r => w :: filter (fun x => negb (x =? w)%string) (first_seen r)
  end.

Definition non_marker (w : string) : bool := negb (w =? "XXX")%string.

(** The text of a list of entries, one line each. *)
Fixpoint top_lines (entries : dict) : string :=
  match entries with
  | [] => EmptyString
  | (w, c) :: r => top_line w c ++ top_lines r
  end.

Definition keys (d : dict) : list string := map fst d.

(** The order of the ranking: the earlier item has at least the count of
    the later one. *)
Definition by_count (a b : string * Z) : Prop := (snd b <= snd a)%Z.

(** The first section of the report. *)
Definition metrics_section (S W T : Z) (ease level : pynum) : string :=
  "Syllables, Words, Sentences, Reading Ease, Reading Level" ++ nl
  ++ PyStr.str_int S ++ "," ++ PyStr.str_int W ++ "," ++ PyStr.str_int T
  ++ "," ++ format_f2 6 ease ++ "," ++ format_f2 6 level ++ nl.

(** The second section of the report. *)
Definition top_section (entries : dict) : string :=
  nl ++ nl ++ "TOP WORDS HERE" ++ nl ++ top_lines entries.

Definition error_message : list pyarg :=
  [AStr "ERROR:  Can not compute metrics without words."].

(** Whether the last character is an [e], as a number. *)
Definition final_e (s : string) : nat :=
  if PyStr.endswith "e" s then 1 else 0.

Fixpoint In_string (c : ascii) (s : string) : Prop :=
  match s with
  | EmptyString => False
  | String d r => d = c \/ In_string c r
  end.

(** The characters that end a sentence. *)
Definition is_terminal (c : ascii) : bool :=
  Ascii.eqb c "." || Ascii.eqb c "?" || Ascii.eqb c "!".

(** How many characters of a string end a sentence. *)
Fixpoint terminals (s : string) : nat :=
  match s with
  | EmptyString => 0
  | String c r => (if is_terminal c then 1 else 0) + terminals r
  end.

(** The six abbreviation substitutions of [normalize_line]. *)
Definition undot (nextLine : string) : string :=
  let nextLine := PyStr.replace "mr." "mr" nextLine in
  let nextLine := PyStr.replace "mrs." "mrs" nextLine in
  let nextLine := PyStr.replace "ms." "ms" nextLine in
  let nextLine := PyStr.replace "dr." "dr" nextLine in
  let nextLine := PyStr.replace "st." "st" nextLine in
  let nextLine := PyStr.replace "prof." "prof" nextLine in
  nextLine.

(** A string rewritten character by character. *)
Fixpoint flat (f : ascii -> string) (s : string) : string :=
  match s with
  | EmptyString => EmptyString
  | String c r => f c ++ flat f r
  end.

(** What the three marker substitutions make of one character. *)
Definition mark_char (c : ascii) : string :=
  if is_terminal c then " XXX " else String c EmptyString.

Definition mark_all (s : string) : string := flat mark_char s.

(** The sum of the counts of a dictionary. *)
Definition sum_counts (d : dict) : Z := fold_right Z.add 0%Z (map snd d).

(** A line made of whitespace only. *)
Definition blank (s : string) : Prop :=
  forall c, In_string c s -> PyStr.isspace c = true.

(** The lines of a file stripped, lowercased and undotted, end to end. *)
Definition undotted_text (INPUT : list string) : string :=
  fold_right (fun l acc => undot (PyStr.lower (PyStr.rstrip l)) ++ acc)
             EmptyString INPUT.

(* ================================================================== *)
(** * Facts about the built-ins *)
(* ================================================================== *)

Section Scan.

Variable sub : string.

Lemma count_from_le_overlapping skip s :
  PyStr.count_from sub skip s <= overlapping sub s.
Proof.
  revert skip; induction s as [| c r IH]; intros skip;
    cbn [PyStr.count_from overlapping].
  - lia.
  - destruct skip as [| k].
    + unfold PyStr.startswith.
      destruct (prefix sub (String c r));
        [specialize (IH (length sub - 1)) | specialize (IH 0)]; lia.
    + specialize (IH k). destruct (prefix sub (String c r)); lia.
Qed.

Lemma count_from_drop skip s :
  PyStr.count_from sub skip s = PyStr.count_from sub 0 (drop skip s).
Proof.
  revert skip; induction s as [| c r IH]; intros skip.
  - destruct skip; reflexivity.
  - destruct skip as [| k].
    + unfold drop. rewrite Nat.sub_0_r.
      replace (substring 0 (length (String c r)) (String c r))
        with (String c r); [reflexivity |].
      clear. generalize (String c r) as t.
      induction t as [| d t IHt]; simpl; [reflexivity | now rewrite <- IHt].
    + cbn [PyStr.count_from]. rewrite IH. reflexivity.
Qed.

End Scan.

Lemma prefix_empty s : prefix EmptyString s = true.
Proof. destruct s; reflexivity. Qed.

Lemma prefix_cons a p b s :
  prefix (String a p) (String b s) = Ascii.eqb a b && prefix p s.
Proof.
  simpl. destruct (ascii_dec a b) as [-> | Hne].
  - now rewrite Ascii.eqb_refl.
  - apply Ascii.eqb_neq in Hne. now rewrite Hne.
Qed.

Lemma count_from_single a s :
  PyStr.count_from (String a EmptyString) 0 s
  = overlapping (String a EmptyString) s.
Proof.
  induction s as [| c r IH]; simpl; [reflexivity |].
  unfold PyStr.startswith. simpl.
  destruct (ascii_dec a c); rewrite ?prefix_empty, IH; reflexivity.
Qed.

Lemma fold_left_plus (f : string -> nat) l a :
  fold_left (fun acc x => acc + Z.of_nat (f x))%Z l a
  = (a + Z.of_nat (total f l))%Z.
Proof.
  unfold total. revert a; induction l as [| x l IH]; intros a; simpl.
  - lia.
  - rewrite IH. lia.
Qed.

Lemma fold_left_minus (f : string -> nat) l a :
  fold_left (fun acc x => acc - Z.of_nat (f x))%Z l a
  = (a - Z.of_nat (total f l))%Z.
Proof.
  unfold total. revert a; induction l as [| x l IH]; intros a; simpl.
  - lia.
  - rewrite IH. lia.
Qed.

Lemma total_le (f g : string -> nat) l :
  (forall x, In x l -> f x <= g x) -> total f l <= total g l.
Proof.
  unfold total. induction l as [| x l IH]; intros H; simpl.
  - lia.
  - assert (f x <= g x) by (apply H; now left).
    assert (list_sum (map f l) <= list_sum (map g l))
      by (apply IH; intros y Hy; apply H; now right).
    lia.
Qed.

(* ================================================================== *)
(** * The syllable estimator never goes below zero *)
(* ================================================================== *)

Ltac split_ascii :=
  repeat match goal with
         | |- context [Ascii.eqb ?a ?b] =>
             is_var b; destruct (Ascii.eqb_spec a b); [subst b |]
         end.

(** At one position: a diphthong starts there only if a vowel does and the
    position is not the last one. *)
Lemma heads_le c r :
  total (fun d => if prefix d (String c r) then 1 else 0) diphtohongList
  + (if ("e" =? String c r)%string then 1 else 0)
  <= total (fun v => if prefix v (String c r) then 1 else 0) vowelList.
Proof.
  unfold total, diphtohongList, vowelList.
  cbn [map list_sum String.eqb].
  rewrite !prefix_cons, ?prefix_empty.
  destruct r as [| c2 r2].
  - cbn [prefix]. split_ascii; cbn; lia.
  - rewrite !prefix_cons, ?prefix_empty.
    split_ascii; cbn; lia.
Qed.

Lemma total_plus (f g : string -> nat) l :
  total (fun x => f x + g x) l = total f l + total g l.
Proof.
  unfold total. induction l as [| x l IH]; simpl; [reflexivity | lia].
Qed.

Lemma total_ext (f g : string -> nat) l :
  (forall x, In x l -> f x = g x) -> total f l = total g l.
Proof.
  intros H. unfold total. f_equal. apply map_ext_in. exact H.
Qed.

Lemma final_e_cons c r :
  final_e (String c r)
  <= (if ("e" =? String c r)%string then 1 else 0) + final_e r.
Proof.
  unfold final_e. cbn [PyStr.endswith].
  destruct ("e" =? String c r)%string; destruct (PyStr.endswith "e" r);
    simpl; lia.
Qed.

(** Over a whole word: every diphthong occurrence starts at a vowel that is
    not the last character. *)
Lemma diphthongs_le_vowels s :
  total (fun d => overlapping d s) diphtohongList + final_e s
  <= total (fun v => overlapping v s) vowelList.
Proof.
  induction s as [| c r IH].
  - vm_compute. lia.
  - cbn [overlapping]. rewrite !total_plus.
    pose proof (heads_le c r). pose proof (final_e_cons c r). lia.
Qed.

Lemma count_vowels_overlapping w :
  count_vowels w = Z.of_nat (total (fun v => overlapping v w) vowelList).
Proof.
  unfold count_vowels. rewrite fold_left_plus, Z.add_0_l. f_equal.
  apply total_ext. intros v Hv.
  simpl in Hv.
  repeat (destruct Hv as [<- | Hv]; [apply count_from_single |]).
  contradiction.
Qed.

Lemma count_diphthongs_le w :
  total (fun d => PyStr.count d w) diphtohongList
  <= total (fun d => overlapping d w) diphtohongList.
Proof.
  apply total_le. intros d Hd. simpl in Hd.
  repeat (destruct Hd as [<- | Hd]; [apply count_from_le_overlapping |]).
  contradiction.
Qed.

(** The running count after the three steps is never negative. *)
Lemma steps_nonneg w :
  (0 <= drop_diphthongs w (silent_e w (count_vowels w)))%Z.
Proof.
  unfold drop_diphthongs. rewrite fold_left_minus.
  pose proof (count_diphthongs_le w) as Hd.
  pose proof (diphthongs_le_vowels w) as Hv.
  rewrite count_vowels_overlapping.
  unfold silent_e, final_e in *.
  destruct (PyStr.endswith "e" w); cbn [andb].
  - destruct (negb (PyStr.mem w specialCases)); [| lia].
    destruct (Z.eqb_spec
                (Z.of_nat (total (fun v => overlapping v w) vowelList)) 0);
      cbn [negb]; lia.
  - lia.
Qed.

(** The final test of the function, which looks for a count of exactly 0,
    is a floor at 1. *)
Lemma syllablesPerWord_floor (word : string) :
  syllablesPerWord word
  = (let w := PyStr.lower word in
     let n := drop_diphthongs w (silent_e w (count_vowels w)) in
     if (n <=? 0)%Z then 1 else n)%Z.
Proof.
  unfold syllablesPerWord, syllablesPerWord_io. cbn [fst]. cbv zeta.
  pose proof (steps_nonneg (PyStr.lower word)) as H.
  set (n := drop_diphthongs _ _) in *.
  destruct (Z.eqb_spec n 0) as [-> | E]; [reflexivity |].
  destruct (Z.leb_spec n 0); [lia | reflexivity].
Qed.

(** C1. For every word, and so for every non-empty one, [syllablesPerWord]
    returns an integer that is at least 1: the count left by the three
    steps is never negative, so the final test, which replaces a count of
    exactly 0 by 1, acts as a floor at 1 on every count that is at most 0. *)
Theorem syllablesPerWord_ge_1 (word : string) :
  (1 <= syllablesPerWord word)%Z
  /\ syllablesPerWord word
     = (let w := PyStr.lower word in
        let n := drop_diphthongs w (silent_e w (count_vowels w)) in
        if (n <=? 0)%Z then 1 else n)%Z.
Proof.
  split; [| apply syllablesPerWord_floor].
  rewrite syllablesPerWord_floor. cbv zeta.
  set (n := drop_diphthongs _ _).
  destruct (Z.leb_spec n 0); lia.
Qed.

(** Words on which the three steps leave 0, and a few others. *)
Example syllables_examples :
  map (fun w => let l := PyStr.lower w in
                drop_diphthongs l (silent_e l (count_vowels l)))
      ["owe"; "awe"; "Oie"; "hmm"; ""; "the"; "queue"; "Readability"]
  = [0; 0; 0; 0; 0; 1; 3; 5]%Z
  /\ map syllablesPerWord
         ["owe"; "awe"; "Oie"; "hmm"; ""; "the"; "queue"; "Readability"]
     = [1; 1; 1; 1; 1; 1; 3; 5]%Z.
Proof. split; vm_compute; reflexivity. Qed.

(* ================================================================== *)
(** * The estimator against the reference algorithm *)
(* ================================================================== *)

Lemma occurrences_overlapping c s :
  Reference.occurrences_of_char c s = overlapping (String c EmptyString) s.
Proof.
  induction s as [| d r IH]; cbn [Reference.occurrences_of_char overlapping].
  - reflexivity.
  - rewrite prefix_cons, prefix_empty, andb_true_r, IH. reflexivity.
Qed.

Lemma vowel_count_agrees w : Reference.vowel_count w = count_vowels w.
Proof.
  rewrite count_vowels_overlapping.
  unfold Reference.vowel_count, Reference.vowels, total, vowelList.
  cbn [map]. rewrite !occurrences_overlapping. reflexivity.
Qed.

Lemma ends_in_e_agrees w : Reference.ends_in_e w = PyStr.endswith "e" w.
Proof.
  unfold Reference.ends_in_e.
  induction w as [| c r IH]; [reflexivity |].
  cbn [PyStr.endswith Reference.last_char String.eqb].
  destruct r as [| d r'].
  - cbn [PyStr.endswith String.eqb].
    rewrite orb_false_r, (Ascii.eqb_sym c "e").
    destruct (Ascii.eqb "e" c); reflexivity.
  - rewrite IH. cbn [String.eqb].
    destruct (Ascii.eqb "e" c); reflexivity.
Qed.

Lemma silent_e_agrees w n : Reference.suppress_silent_e w n = silent_e w n.
Proof.
  unfold Reference.suppress_silent_e, silent_e, PyStr.mem.
  rewrite ends_in_e_agrees.
  change Reference.exceptions with specialCases.
  destruct (PyStr.endswith "e" w); [| reflexivity].
  destruct (existsb (String.eqb w) specialCases); [reflexivity |].
  destruct (n =? 0)%Z; reflexivity.
Qed.

Lemma substring_length_le s : forall n m, length (substring n m s) <= m.
Proof.
  induction s as [| c r IH]; intros [| n] [| m]; simpl; try lia.
  - specialize (IH 0 m). lia.
  - apply IH.
  - apply IH.
Qed.

(** The fuelled scan of the reference and Python's [count] walk a word in
    the same way. *)
Lemma scan_count a p s :
  forall fuel, length s <= fuel ->
  Reference.scan fuel (String a p) s = PyStr.count (String a p) s.
Proof.
  cbn [PyStr.count]. intros fuel; revert s.
  induction fuel as [| f IH]; intros s Hlen.
  - destruct s; [reflexivity | simpl in Hlen; lia].
  - destruct s as [| c r]; [reflexivity |].
    cbn [Reference.scan PyStr.count_from]. unfold PyStr.startswith.
    destruct (prefix (String a p) (String c r)).
    + f_equal. rewrite (count_from_drop _ (length (String a p) - 1) r).
      rewrite IH.
      * unfold drop. cbn [length substring].
        replace (S (length p) - 1) with (length p) by lia.
        replace (S (length r) - S (length p)) with (length r - length p)
          by lia.
        reflexivity.
      * cbn [length] in *.
        pose proof (substring_length_le (String c r) (S (length p))
                      (S (length r) - S (length p))).
        lia.
    + apply IH. cbn [length] in Hlen. lia.
Qed.

Lemma collapse_agrees w n :
  Reference.collapse_diphthongs w n = drop_diphthongs w n.
Proof.
  unfold Reference.collapse_diphthongs, drop_diphthongs.
  rewrite fold_left_minus. f_equal. f_equal.
  change Reference.diphthongs with diphtohongList.
  apply (total_ext (fun d => Reference.nonoverlapping d w)).
  intros d Hd. unfold Reference.nonoverlapping. simpl in Hd.
  repeat (destruct Hd as [<- | Hd]; [apply scan_count; lia |]).
  contradiction.
Qed.

(** C2. On every word, and so on every non-empty one, [syllablesPerWord]
    computes what the reference algorithm computes: lowercase; add up the
    occurrence counts of the six vowel characters; subtract 1 for a final
    [e] when the word is not one of the fourteen exceptions and the count
    is not zero; subtract the non-overlapping occurrences of each of the
    twelve diphthongs; floor at 1. *)
Theorem syllablesPerWord_refines_reference (word : string) :
  syllablesPerWord word = Reference.syllables word.
Proof.
  rewrite syllablesPerWord_floor.
  unfold Reference.syllables, Reference.floor_at_one. cbv zeta.
  rewrite collapse_agrees, silent_e_agrees, vowel_count_agrees.
  reflexivity.
Qed.

(* ================================================================== *)
(** * Punctuation stripping *)
(* ================================================================== *)

Lemma append_assoc (a b c : string) : (a ++ b) ++ c = a ++ (b ++ c).
Proof. induction a as [| x a IH]; simpl; [reflexivity | now rewrite IH]. Qed.

Lemma append_empty_r (a : string) : a ++ EmptyString = a.
Proof. induction a as [| x a IH]; simpl; [reflexivity | now rewrite IH]. Qed.

(** [string.punctuation] is the set of the code points 33-47, 58-64, 91-96
    and 123-126. *)
Lemma punctuation_codes (c : ascii) :
  PyStr.contains_char c punctuation
  = let n := PyStr.ord c in
    ((33 <=? n) && (n <=? 47) || (58 <=? n) && (n <=? 64)
     || (91 <=? n) && (n <=? 96) || (123 <=? n) && (n <=? 126))%N.
Proof.
  destruct c as [[] [] [] [] [] [] [] []]; vm_compute; reflexivity.
Qed.

Lemma remove_punctuation_loop_spec s :
  forall acc,
  remove_punctuation_loop acc s
  = acc ++ filter_chars
             (fun c => negb (PyStr.contains_char c punctuation)) s.
Proof.
  induction s as [| c r IH]; intros acc;
    cbn [remove_punctuation_loop filter_chars].
  - now rewrite append_empty_r.
  - rewrite IH.
    destruct (negb (PyStr.contains_char c punctuation)); [| reflexivity].
    rewrite append_assoc. reflexivity.
Qed.

Lemma In_filter_chars keep c s :
  In_string c (filter_chars keep s) <-> In_string c s /\ keep c = true.
Proof.
  induction s as [| d r IH]; cbn [filter_chars In_string].
  - tauto.
  - destruct (keep d) eqn:E; cbn [In_string]; rewrite IH; split.
    + intros [-> | [H1 H2]]; auto.
    + intros [[-> | H1] H2]; auto.
    + intros [H1 H2]; auto.
    + intros [[-> | H1] H2]; [congruence | auto].
Qed.

(** C9. [remove_punctuation] is defined on every string; its result is the
    input with the characters of [string.punctuation] taken out: the other
    characters stay, in their order, nothing is put in their place, and no
    punctuation character is left. *)
Theorem remove_punctuation_spec (s : string) :
  remove_punctuation s
  = filter_chars (fun c => negb (PyStr.contains_char c punctuation)) s
  /\ (forall c, In_string c (remove_punctuation s) ->
                PyStr.contains_char c punctuation = false).
Proof.
  assert (E : remove_punctuation s
              = filter_chars
                  (fun c => negb (PyStr.contains_char c punctuation)) s).
  { unfold remove_punctuation. now rewrite remove_punctuation_loop_spec. }
  split; [exact E |]. rewrite E.
  intros c Hc. apply In_filter_chars in Hc. destruct Hc as [_ Hc].
  now apply negb_true_iff in Hc.
Qed.

Example remove_punctuation_fuses :
  remove_punctuation "it's a well-known fact, isn't it?"
  = "its a wellknown fact isnt it".
Proof. reflexivity. Qed.

(* ================================================================== *)
(** * Corpus metrics *)
(* ================================================================== *)

(** The words both counters walk over. *)
Lemma syllables_loop words :
  forall total out,
  fst (fold_left (fun '(totalSyllables, out) word =>
                    let '(n, printed) := syllablesPerWord_io word in
                    ((totalSyllables + n)%Z, (out ++ printed)%list))
                 words (total, out))
  = (total + fold_right Z.add 0 (map syllablesPerWord words))%Z.
Proof.
  induction words as [| w ws IH]; intros total out; cbn [fold_left map fold_right].
  - cbn [fst]. lia.
  - unfold syllablesPerWord at 1.
    destruct (syllablesPerWord_io w) as [n printed]. cbn [fst].
    rewrite IH. lia.
Qed.

Lemma sum_ge_length words :
  (Z.of_nat (List.length words)
   <= fold_right Z.add 0 (map syllablesPerWord words))%Z.
Proof.
  induction words as [| w ws IH]; cbn [List.length map fold_right]; [lia |].
  pose proof (syllablesPerWord_floor w) as Hw. cbv zeta in Hw.
  pose proof (steps_nonneg (PyStr.lower w)) as Hn.
  destruct (Z.leb_spec
              (drop_diphthongs (PyStr.lower w)
                 (silent_e (PyStr.lower w) (count_vowels (PyStr.lower w))))
              0); lia.
Qed.

(** C10. On every string the syllable total is at least the word total:
    the two functions split the string into the same words, the word count
    is their number and the syllable total adds up one estimate, of at
    least 1, for each of them. *)
Theorem syllables_ge_words (s : string) :
  let words := PyStr.split (PyStr.replace SENTENCE_MARKER " " s) in
  getNumberOfTotalWords s = Z.of_nat (List.length words)
  /\ getNumberOfTotalSyllables s
     = fold_right Z.add 0%Z (map syllablesPerWord words)
  /\ (getNumberOfTotalSyllables s >= getNumberOfTotalWords s)%Z.
Proof.
  intros words.
  assert (E : getNumberOfTotalSyllables s
              = fold_right Z.add 0%Z (map syllablesPerWord words)).
  { unfold getNumberOfTotalSyllables, getNumberOfTotalSyllables_io.
    cbv zeta. fold words. rewrite syllables_loop. lia. }
  split; [reflexivity |]. split; [exact E |].
  rewrite E. unfold getNumberOfTotalWords. cbv zeta. fold words.
  pose proof (sum_ge_length words). lia.
Qed.

(* ================================================================== *)
(** * Readability formulas *)
(* ================================================================== *)

Lemma formulas_defined S W T :
  compute_FleschReadingEase S W T <> None
  /\ compute_FleschKincaidGradeLevel S W T <> None.
Proof.
  unfold compute_FleschReadingEase, compute_FleschKincaidGradeLevel, truediv.
  destruct (Z.eqb_spec S 0); [split; discriminate |].
  destruct (Z.eqb_spec W 0); [split; discriminate |].
  destruct (Z.eqb_spec T 0); [split; discriminate |].
  cbn [orb]. split; discriminate.
Qed.

(** C6. When one of the three counts is 0 both formulas return 0, whatever
    the other two are; and on counts below [2^53], zero or not, both
    formulas return a value: the guard keeps every division away from a
    zero divisor, so no division by zero is attempted. *)
Theorem zero_guard (S W T : Z) :
  (S = 0 \/ W = 0 \/ T = 0 ->
   compute_FleschReadingEase S W T = Some (PyInt 0)
   /\ compute_FleschKincaidGradeLevel S W T = Some (PyInt 0))%Z
  /\ compute_FleschReadingEase 0 W T = Some (PyInt 0)
  /\ compute_FleschKincaidGradeLevel S 0 T = Some (PyInt 0)
  /\ ((Z.abs S < 2 ^ 53 /\ Z.abs W < 2 ^ 53 /\ Z.abs T < 2 ^ 53)%Z ->
      compute_FleschReadingEase S W T <> None
      /\ compute_FleschKincaidGradeLevel S W T <> None).
Proof.
  split; [| split; [| split]].
  - unfold compute_FleschReadingEase, compute_FleschKincaidGradeLevel.
    intros [-> | [-> | ->]]; cbn [Z.eqb orb];
      rewrite ?orb_true_r; split; reflexivity.
  - reflexivity.
  - unfold compute_FleschKincaidGradeLevel. cbn [Z.eqb].
    now rewrite orb_true_r.
  - intros _. apply formulas_defined.
Qed.

Lemma zero_guard_witness :
  ((6 = 0 \/ 0 = 0 \/ 2 = 0)%Z
   /\ compute_FleschReadingEase 6 0 2 = Some (PyInt 0)
   /\ compute_FleschKincaidGradeLevel 6 0 2 = Some (PyInt 0))
  /\ ((Z.abs 6 < 2 ^ 53 /\ Z.abs 6 < 2 ^ 53 /\ Z.abs 2 < 2 ^ 53)%Z
      /\ compute_FleschReadingEase 6 6 2 <> None
      /\ compute_FleschKincaidGradeLevel 6 6 2 <> None).
Proof.
  split.
  - split.
    + right; left; reflexivity.
    + apply (proj1 (zero_guard 6 0 2)). right; left; reflexivity.
  - assert (H : (Z.abs 6 < 2 ^ 53 /\ Z.abs 6 < 2 ^ 53 /\ Z.abs 2 < 2 ^ 53)%Z)
      by (repeat split; reflexivity).
    split; [exact H |].
    exact (proj2 (proj2 (proj2 (zero_guard 6 6 2))) H).
Defined.

(* ================================================================== *)
(** * The normaliser *)
(* ================================================================== *)

Lemma prefix_app p : forall a b, prefix p a = true -> prefix p (a ++ b) = true.
Proof.
  induction p as [| x p IH]; intros a b H.
  - apply prefix_empty.
  - destruct a as [| y a]; [discriminate |].
    cbn [append]. rewrite prefix_cons in *.
    apply andb_true_iff in H. destruct H as [-> H].
    cbn [andb]. now apply IH.
Qed.

Lemma prefix_length p : forall a, prefix p a = true -> length p <= length a.
Proof.
  induction p as [| x p IH]; intros a H; cbn [length]; [lia |].
  destruct a as [| y a]; [discriminate |].
  rewrite prefix_cons in H. apply andb_true_iff in H. destruct H as [_ H].
  apply IH in H. cbn [length]. lia.
Qed.

Section ReplaceApp.

Variables old new : string.

(** A replacement can be done piecewise across a boundary that no
    occurrence of the pattern straddles. *)
Lemma replace_from_app b a :
  forall skip, skip <= length a -> no_straddle old a b ->
  PyStr.replace_from old new skip (a ++ b)
  = PyStr.replace_from old new skip a ++ PyStr.replace_from old new 0 b.
Proof.
  induction a as [| c a IH]; intros skip Hskip Hns.
  - cbn [length] in Hskip. replace skip with 0 by lia. reflexivity.
  - assert (Hns' : no_straddle old a b).
    { intros a1 a2 -> Hne Hp. apply (Hns (String c a1) a2); auto. }
    cbn [append PyStr.replace_from]. destruct skip as [| k].
    + unfold PyStr.startswith.
      destruct (prefix old (String c a)) eqn:E.
      * rewrite (prefix_app _ _ b E : prefix old (String c (a ++ b)) = true).
        apply prefix_length in E. cbn [length] in E.
        rewrite IH by (auto; lia). now rewrite append_assoc.
      * destruct (prefix old (String c (a ++ b))) eqn:E'.
        -- rewrite (Hns EmptyString (String c a) eq_refl) in E;
             [discriminate | discriminate | exact E'].
        -- rewrite IH by (auto; cbn [length]; lia). reflexivity.
    + cbn [length] in Hskip. apply IH; [lia | exact Hns'].
Qed.

End ReplaceApp.

(** A pattern that matches across the end of [a2] would have to contain
    the character that follows. *)
Lemma prefix_fresh d b a2 :
  forall p, PyStr.contains_char d p = false ->
            prefix p (a2 ++ String d b) = true -> prefix p a2 = true.
Proof.
  induction a2 as [| y a2 IH]; intros [| x p] Hd Hp;
    try apply prefix_empty; cbn [PyStr.contains_char append] in *;
    apply orb_false_iff in Hd; destruct Hd as [Hdx Hd];
    rewrite prefix_cons in *; apply andb_true_iff in Hp;
    destruct Hp as [Hxy Hp].
  - apply Ascii.eqb_eq in Hxy. subst x. now rewrite Ascii.eqb_refl in Hdx.
  - rewrite Hxy. cbn [andb]. now apply IH.
Qed.

Lemma replace_before new x p d b a :
  PyStr.contains_char d p = false ->
  PyStr.replace_from (String x p) new 0 (a ++ String d b)
  = PyStr.replace_from (String x p) new 0 a
    ++ PyStr.replace_from (String x p) new 0 (String d b).
Proof.
  intros Hd. apply replace_from_app; [lia |].
  intros a1 a2 _ Hne Hp. destruct a2 as [| y a2]; [contradiction |].
  cbn [append] in Hp. rewrite prefix_cons in *.
  apply andb_true_iff in Hp. destruct Hp as [-> Hp]. cbn [andb].
  now apply (prefix_fresh d b).
Qed.

Lemma lower_app a b : PyStr.lower (a ++ b) = PyStr.lower a ++ PyStr.lower b.
Proof.
  induction a as [| c a IH]; cbn [append PyStr.lower];
    [reflexivity | now rewrite IH].
Qed.

Lemma rstrip_cons_nonspace c r :
  PyStr.isspace c = false ->
  PyStr.rstrip (String c r) = String c (PyStr.rstrip r).
Proof.
  intros H. cbn [PyStr.rstrip]. rewrite H. now destruct (PyStr.rstrip r).
Qed.

Lemma rstrip_cons_nonempty c r :
  PyStr.rstrip r <> EmptyString ->
  PyStr.rstrip (String c r) = String c (PyStr.rstrip r).
Proof.
  intros H. cbn [PyStr.rstrip]. destruct (PyStr.rstrip r); congruence.
Qed.

Lemma rstrip_app a b :
  PyStr.rstrip b <> EmptyString -> PyStr.rstrip (a ++ b) = a ++ PyStr.rstrip b.
Proof.
  intros H. induction a as [| c a IH]; cbn [append]; [reflexivity |].
  rewrite rstrip_cons_nonempty; rewrite IH; [reflexivity |].
  destruct a; cbn [append]; [exact H | discriminate].
Qed.

Lemma rstrip_dr_smith post :
  PyStr.rstrip ("dr. smith" ++ post) = "dr. smith" ++ PyStr.rstrip post.
Proof.
  cbn [append].
  rewrite !(rstrip_cons_nonspace "d"), !(rstrip_cons_nonspace "r"),
    !(rstrip_cons_nonspace ".") by reflexivity.
  rewrite rstrip_cons_nonempty.
  - now rewrite !rstrip_cons_nonspace by reflexivity.
  - now rewrite rstrip_cons_nonspace by reflexivity.
Qed.

Ltac across_boundary :=
  rewrite replace_before by reflexivity; cbn.

Lemma normalize_line_stages nextLine :
  normalize_line nextLine
  = undot_and_mark (PyStr.lower (PyStr.rstrip nextLine)).
Proof. reflexivity. Qed.

Lemma getData_loop INPUT :
  forall fileAsOneString,
  fold_left (fun fileAsOneString nextLine =>
               fileAsOneString ++ normalize_line nextLine)
            INPUT fileAsOneString
  = fileAsOneString ++ getData INPUT.
Proof.
  unfold getData.
  induction INPUT as [| l ls IH]; intros acc; cbn [fold_left].
  - now rewrite append_empty_r.
  - rewrite IH, (IH (EmptyString ++ normalize_line l)).
    cbn [append]. now rewrite append_assoc.
Qed.

(** The lines are normalised one by one and joined without a break. *)
Lemma getData_app before after :
  getData (before ++ after)%list = getData before ++ getData after.
Proof.
  unfold getData at 1. rewrite fold_left_app.
  fold (getData before). apply getData_loop.
Qed.

Lemma getData_cons nextLine after :
  getData (nextLine :: after) = normalize_line nextLine ++ getData after.
Proof.
  unfold getData at 1. cbn [fold_left]. apply getData_loop.
Qed.

Lemma normalize_dr_smith pre post :
  normalize_line (pre ++ "dr. smith" ++ post)
  = undot_and_mark (PyStr.lower pre) ++ "dr smith"
    ++ undot_and_mark (PyStr.lower (PyStr.rstrip post)).
Proof.
  unfold normalize_line, undot_and_mark. cbv zeta.
  rewrite rstrip_app by (rewrite rstrip_dr_smith; discriminate).
  rewrite rstrip_dr_smith, !lower_app.
  unfold PyStr.replace, SENTENCE_MARKER.
  cbn.
  do 9 across_boundary. reflexivity.
Qed.

(** C7. The abbreviations lose their dot before the sentence ends are
    marked.  So wherever a line of the file reads [dr. smith] the
    normalised text reads [dr smith]: what stands before and what stands
    after on the line are normalised on their own, as are the other lines,
    and no sentence marker comes between or from the dot.  The line
    [dr. smith] itself becomes [dr smith] and counts no sentence. *)
Theorem abbreviation_before_marker
  (before after : list string) (pre post : string) :
  normalize_line (pre ++ "dr. smith" ++ post)
  = undot_and_mark (PyStr.lower pre) ++ "dr smith"
    ++ undot_and_mark (PyStr.lower (PyStr.rstrip post))
  /\ getData (before ++ (pre ++ "dr. smith" ++ post)%string :: after)%list
     = getData before
       ++ (undot_and_mark (PyStr.lower pre) ++ "dr smith"
           ++ undot_and_mark (PyStr.lower (PyStr.rstrip post)))
       ++ getData after
  /\ getData ["dr. smith"] = "dr smith"
  /\ getNumberOfTotalSentences (getData ["dr. smith"]) = 0%Z
  /\ getData ["Dr. Smith went home."] = "dr smith went home XXX ".
Proof.
  split; [apply normalize_dr_smith |].
  split; [| repeat split; vm_compute; reflexivity].
  now rewrite getData_app, getData_cons, normalize_dr_smith.
Qed.

(* ================================================================== *)
(** * The worked example *)
(* ================================================================== *)

(** The normalised example is not the single-spaced string: the marker is
    padded on both sides, and the blank that followed the full stop in the
    input is kept. *)
Lemma example_not_single_spaced :
  getData [example_line] <> "the cat sat XXX the dog ran XXX ".
Proof.
  vm_compute. discriminate.
Qed.

(** C3, as the script behaves.  The line [The cat sat. The dog ran!] is
    normalised to [the cat sat XXX  the dog ran XXX ], with two blanks
    after the first marker; on it there are 6 words, 2 sentences and 6
    syllables; the two scores for (6, 6, 2) are the floats
    119.19000000000003 and -2.6199999999999992, which the report prints
    with two decimals as 119.19 and -2.62. *)
#[warnings="-inexact-float"] Theorem example_end_to_end :
  getData [example_line] = "the cat sat XXX  the dog ran XXX "
  /\ getNumberOfTotalWords (getData [example_line]) = 6%Z
  /\ getNumberOfTotalSentences (getData [example_line]) = 2%Z
  /\ getNumberOfTotalSyllables (getData [example_line]) = 6%Z
  /\ compute_FleschReadingEase 6 6 2
     = Some (PyFloat 119.19000000000003%float)
  /\ compute_FleschKincaidGradeLevel 6 6 2
     = Some (PyFloat (-2.6199999999999992)%float)
  /\ option_map (format_f2 6) (compute_FleschReadingEase 6 6 2)
     = Some "119.19"
  /\ option_map (format_f2 6) (compute_FleschKincaidGradeLevel 6 6 2)
     = Some " -2.62"
  /\ option_map fst (main [example_line] None)
     = Some (Some ("Syllables, Words, Sentences, Reading Ease, Reading Level"
                   ++ nl ++ "6,6,2,119.19, -2.62" ++ nl
                   ++ nl ++ nl ++ "TOP WORDS HERE" ++ nl
                   ++ "2,the" ++ nl ++ "1,cat" ++ nl ++ "1,sat" ++ nl
                   ++ "1,dog" ++ nl ++ "1,ran" ++ nl)).
Proof.
  repeat split; vm_compute; reflexivity.
Qed.

(* ================================================================== *)
(** * The frequency ranking *)
(* ================================================================== *)

Section Ranking.

Local Open Scope Z_scope.

Lemma insert_by_count_perm x l : Permutation (insert_by_count x l) (x :: l).
Proof.
  induction l as [| y r IH]; cbn [insert_by_count]; [reflexivity |].
  destruct (snd y <=? snd x); [reflexivity |].
  rewrite IH. apply perm_swap.
Qed.

Lemma sorted_by_count_perm l : Permutation (sorted_by_count l) l.
Proof.
  induction l as [| x r IH]; cbn [sorted_by_count]; [reflexivity |].
  rewrite insert_by_count_perm. now constructor.
Qed.

Lemma insert_by_count_hd y x l :
  snd x <= snd y -> HdRel by_count y l -> HdRel by_count y (insert_by_count x l).
Proof.
  intros Hxy Hl. destruct l as [| z r]; cbn [insert_by_count].
  - now constructor.
  - destruct (snd z <=? snd x); constructor; [exact Hxy |].
    now inversion Hl.
Qed.

Lemma insert_by_count_sorted x l :
  Sorted by_count l -> Sorted by_count (insert_by_count x l).
Proof.
  induction l as [| y r IH]; intros Hs; cbn [insert_by_count].
  - repeat constructor.
  - inversion Hs as [| ? ? Hr Hhd]; subst.
    destruct (Z.leb_spec (snd y) (snd x)).
    + constructor; [exact Hs |]. now constructor.
    + constructor; [now apply IH |].
      apply insert_by_count_hd; [lia | exact Hhd].
Qed.

Lemma sorted_by_count_sorted l : StronglySorted by_count (sorted_by_count l).
Proof.
  apply Sorted_StronglySorted.
  - intros a b c Hab Hbc. unfold by_count in *. lia.
  - induction l as [| x r IH]; cbn [sorted_by_count]; [constructor |].
    now apply insert_by_count_sorted.
Qed.

(** Stability: the items of one count keep their order. *)
Lemma insert_by_count_stable c x l :
  filter (fun e => snd e =? c) (insert_by_count x l)
  = filter (fun e => snd e =? c) (x :: l).
Proof.
  induction l as [| y r IH]; cbn [insert_by_count]; [reflexivity |].
  destruct (Z.leb_spec (snd y) (snd x)); [reflexivity |].
  cbn [filter] in *. rewrite IH.
  destruct (Z.eqb_spec (snd y) c), (Z.eqb_spec (snd x) c);
    try reflexivity; lia.
Qed.

Lemma sorted_by_count_stable c l :
  filter (fun e => snd e =? c) (sorted_by_count l)
  = filter (fun e => snd e =? c) l.
Proof.
  induction l as [| x r IH]; cbn [sorted_by_count]; [reflexivity |].
  rewrite insert_by_count_stable. cbn [filter]. now rewrite IH.
Qed.

(** The final loop writes the first [N] items that are not the marker. *)
Lemma emit_loop N l :
  forall count written,
  fold_left (emit_step N) l (count, written)
  = let F := firstn (Z.to_nat (N - count + 1))
                    (filter (fun e => non_marker (fst e)) l) in
    (count + Z.of_nat (List.length F), (written ++ F)%list).
Proof.
  induction l as [| [w c] r IH]; intros count written; cbv zeta.
  - cbn [fold_left filter]. rewrite firstn_nil. cbn [List.length].
    rewrite app_nil_r. f_equal. lia.
  - cbn [fold_left filter emit_step fst]. fold (non_marker w).
    destruct (non_marker w); cbn [andb].
    + destruct (Z.leb_spec count N).
      * rewrite IH. cbv zeta.
        replace (Z.to_nat (N - count + 1))
          with (S (Z.to_nat (N - (count + 1) + 1))) by lia.
        cbn [firstn List.length]. rewrite <- app_assoc. cbn [app].
        f_equal. lia.
      * rewrite IH. cbv zeta.
        replace (Z.to_nat (N - count + 1)) with 0%nat by lia.
        reflexivity.
    + apply IH.
Qed.

Lemma top_lines_app a b :
  top_lines (a ++ b)%list = (top_lines a ++ top_lines b)%string.
Proof.
  induction a as [| [w c] a IH]; cbn [app top_lines]; [reflexivity |].
  now rewrite IH, append_assoc.
Qed.

(** The file loop and the recording loop move in step. *)
Lemma top_loop N l :
  forall count CSV written,
  fold_left (top_step N) l (count, (CSV ++ top_lines written)%string)
  = (fst (fold_left (emit_step N) l (count, written)),
     (CSV ++ top_lines (snd (fold_left (emit_step N) l (count, written))))%string).
Proof.
  induction l as [| [w c] r IH]; intros count CSV written.
  - reflexivity.
  - cbn [fold_left top_step emit_step].
    destruct (negb (w =? "XXX")%string && (count <=? N)); [| apply IH].
    rewrite <- IH. rewrite top_lines_app. cbn [top_lines].
    now rewrite append_empty_r, append_assoc.
Qed.

Lemma emitted_spec s N :
  emitted s N
  = firstn (Z.to_nat N) (filter (fun e => non_marker (fst e)) (ranking s)).
Proof.
  unfold emitted. rewrite emit_loop. cbv zeta. cbn [snd app].
  f_equal. f_equal. lia.
Qed.

Lemma printTopNwords_text s N report :
  printTopNwords s N report
  = (Some (file_text report ++ nl ++ nl ++ "TOP WORDS HERE" ++ nl
           ++ top_lines (emitted s N))%string,
     [[ADict (ranking s)]]).
Proof.
  unfold printTopNwords, emitted. cbv zeta.
  pose proof (top_loop N (ranking s) 1
                (file_text report ++ nl ++ nl ++ "TOP WORDS HERE" ++ nl) [])
    as H.
  cbn [top_lines] in H. rewrite append_empty_r in H. rewrite H.
  rewrite !append_assoc. reflexivity.
Qed.

End Ranking.

(** ** The dictionary of counts *)

Lemma mem_In x l : PyStr.mem x l = true <-> In x l.
Proof.
  unfold PyStr.mem. rewrite existsb_exists. split.
  - intros [y [Hy E]]. apply String.eqb_eq in E. now subst.
  - intros H. exists x. split; [exact H | apply String.eqb_refl].
Qed.

Lemma dict_get_keys k d : dict_get k d = None <-> ~ In k (keys d).
Proof.
  induction d as [| [k' v] r IH]; cbn [dict_get keys map fst In].
  - tauto.
  - destruct (String.eqb_spec k k') as [-> | Hne].
    + split; [discriminate | intros H; exfalso; apply H; now left].
    + unfold keys in IH. rewrite IH. split.
      * intros H [E | Hin]; [congruence | tauto].
      * intros H Hin. apply H. now right.
Qed.

Lemma dict_set_present k v d :
  In k (keys d) -> keys (dict_set k v d) = keys d.
Proof.
  induction d as [| [k' v'] r IH]; cbn [dict_set keys map fst In];
    [contradiction |].
  intros H. destruct (String.eqb_spec k k') as [-> | Hne]; [reflexivity |].
  cbn [map fst]. f_equal. apply IH. destruct H; [congruence | assumption].
Qed.

Lemma dict_set_absent k v d :
  ~ In k (keys d) -> dict_set k v d = (d ++ [(k, v)])%list.
Proof.
  induction d as [| [k' v'] r IH]; cbn [dict_set keys map fst In app];
    [reflexivity |].
  intros H. destruct (String.eqb_spec k k') as [-> | Hne].
  - exfalso. apply H. now left.
  - f_equal. apply IH. intros Hin. apply H. now right.
Qed.

Lemma dict_get_set w k v d :
  dict_get w (dict_set k v d)
  = if (w =? k)%string then Some v else dict_get w d.
Proof.
  induction d as [| [k' v'] r IH]; cbn [dict_set dict_get].
  - reflexivity.
  - destruct (String.eqb_spec k k') as [-> | Hne]; cbn [dict_get].
    + destruct (w =? k')%string; reflexivity.
    + rewrite IH. destruct (String.eqb_spec w k') as [-> | Hne'].
      * destruct (String.eqb_spec k' k); [congruence | reflexivity].
      * reflexivity.
Qed.

Lemma keys_count_step d w :
  keys (count_step d w)
  = if PyStr.mem w (keys d) then keys d else (keys d ++ [w])%list.
Proof.
  unfold count_step.
  destruct (PyStr.mem w (keys d)) eqn:E.
  - apply mem_In in E.
    destruct (dict_get w d); now apply dict_set_present.
  - assert (H : ~ In w (keys d)).
    { intros Hin. apply mem_In in Hin. congruence. }
    pose proof (proj2 (dict_get_keys w d) H) as Hg. rewrite Hg.
    rewrite dict_set_absent by exact H.
    unfold keys. now rewrite map_app.
Qed.

Lemma filter_filter (P Q : string -> bool) l :
  filter P (filter Q l) = filter (fun x => P x && Q x) l.
Proof.
  induction l as [| x l IH]; cbn [filter]; [reflexivity |].
  destruct (Q x); cbn [filter]; rewrite ?andb_true_r, ?andb_false_r.
  - destruct (P x); now rewrite IH.
  - exact IH.
Qed.

(** The keys of the dictionary are the words in the order in which the
    loop first meets them. *)
Lemma keys_fold l :
  forall d,
  keys (fold_left count_step l d)
  = (keys d
     ++ filter (fun x => negb (PyStr.mem x (keys d))) (first_seen l))%list.
Proof.
  induction l as [| w l IH]; intros d; cbn [fold_left first_seen filter].
  - now rewrite app_nil_r.
  - rewrite IH, keys_count_step.
    destruct (PyStr.mem w (keys d)) eqn:E; cbn [negb].
    + f_equal. rewrite filter_filter. apply filter_ext. intros x.
      destruct (String.eqb_spec x w) as [-> | Hne]; cbn [negb].
      * now rewrite E.
      * now rewrite andb_true_r.
    + rewrite <- app_assoc. cbn [app]. f_equal. f_equal.
      rewrite filter_filter. apply filter_ext. intros x.
      unfold PyStr.mem. rewrite existsb_app. cbn [existsb].
      now rewrite orb_false_r, negb_orb.
Qed.

Lemma keys_count_words l : keys (count_words l) = first_seen l.
Proof.
  unfold count_words. rewrite keys_fold. cbn [keys map app].
  apply filter_true.
Qed.

(** The count stored for a word is the number of its occurrences. *)
Lemma get_fold w l :
  forall d,
  dict_get w (fold_left count_step l d)
  = match dict_get w d with
    | Some v => Some (v + Z.of_nat (count_occ string_dec l w))%Z
    | None => if (count_occ string_dec l w =? 0)%nat then None
              else Some (Z.of_nat (count_occ string_dec l w))
    end.
Proof.
  induction l as [| t l IH]; intros d; cbn [fold_left count_occ].
  - destruct (dict_get w d); [f_equal; lia | reflexivity].
  - rewrite IH. unfold count_step.
    destruct (string_dec t w) as [-> | Hne].
    + destruct (dict_get w d) as [v |] eqn:E;
        rewrite dict_get_set, String.eqb_refl.
      * f_equal. lia.
      * cbn [Nat.eqb]. f_equal. lia.
    + assert (Hwt : (w =? t)%string = false)
        by (apply String.eqb_neq; congruence).
      destruct (dict_get t d); rewrite dict_get_set, Hwt; reflexivity.
Qed.

Lemma first_seen_In x l : In x (first_seen l) <-> In x l.
Proof.
  induction l as [| w l IH]; cbn [first_seen In]; [tauto |].
  rewrite filter_In, IH. split.
  - intros [H | [H _]]; auto.
  - intros [H | H]; [now left |].
    destruct (String.eqb_spec x w) as [-> | Hne]; [now left | right].
    split; [exact H | reflexivity].
Qed.

Lemma first_seen_NoDup l : NoDup (first_seen l).
Proof.
  induction l as [| w l IH]; cbn [first_seen]; constructor.
  - rewrite filter_In, String.eqb_refl. intros [_ H]. discriminate.
  - now apply NoDup_filter.
Qed.

Lemma In_dict_get w c d :
  NoDup (keys d) -> In (w, c) d -> dict_get w d = Some c.
Proof.
  induction d as [| [k v] r IH]; cbn [keys map fst In dict_get];
    [contradiction |].
  intros Hnd [E | Hin].
  - inversion E; subst. now rewrite String.eqb_refl.
  - inversion Hnd as [| ? ? Hk Hr]; subst.
    destruct (String.eqb_spec w k) as [-> | Hne].
    + exfalso. apply Hk. apply (in_map fst) in Hin. exact Hin.
    + now apply IH.
Qed.

Lemma count_words_entry l w c :
  In (w, c) (count_words l) ->
  c = Z.of_nat (count_occ string_dec l w) /\ In w l.
Proof.
  intros Hin.
  assert (Hk : In w (keys (count_words l)))
    by (apply (in_map fst) in Hin; exact Hin).
  rewrite keys_count_words, first_seen_In in Hk.
  apply In_dict_get in Hin;
    [| rewrite keys_count_words; apply first_seen_NoDup].
  unfold count_words in Hin. rewrite get_fold in Hin. cbn [dict_get] in Hin.
  destruct (count_occ string_dec l w =? 0)%nat; [discriminate |].
  split; [congruence | exact Hk].
Qed.

Lemma filter_permutation (f : string -> bool) l l' :
  Permutation l l' -> Permutation (filter f l) (filter f l').
Proof.
  induction 1 as [| x l l' _ IH | x y l | l l' l'' _ IH1 _ IH2];
    cbn [filter].
  - constructor.
  - destruct (f x); [now constructor | exact IH].
  - destruct (f x), (f y); try reflexivity. apply perm_swap.
  - now transitivity (filter f l').
Qed.

Lemma ranking_perm s : Permutation (ranking s) (count_words (tokens s)).
Proof. apply sorted_by_count_perm. Qed.

Lemma ranking_non_marker_length s :
  List.length (filter (fun e => non_marker (fst e)) (ranking s))
  = List.length (filter non_marker (first_seen (tokens s))).
Proof.
  rewrite <- (length_map fst), <- filter_map_swap.
  apply Permutation_length, filter_permutation.
  rewrite <- keys_count_words. unfold keys.
  apply Permutation_map, ranking_perm.
Qed.

(** ** The properties of the ranking *)

Lemma In_firstn_In (x : string * Z) n l : In x (firstn n l) -> In x l.
Proof.
  intros H. rewrite <- (firstn_skipn n l). apply in_or_app. now left.
Qed.

Lemma keys_filter_by_count (toks : list string) c (d : dict) :
  (forall w n, In (w, n) d -> n = Z.of_nat (count_occ string_dec toks w)) ->
  map fst (filter (fun e => snd e =? c)%Z d)
  = filter (fun w => Z.of_nat (count_occ string_dec toks w) =? c)%Z (keys d).
Proof.
  induction d as [| [w n] r IH]; intros H; cbn [filter keys map fst snd];
    [reflexivity |].
  rewrite <- (H w n) by now left.
  assert (IH' := IH (fun w' n' Hin => H w' n' (or_intror Hin))).
  unfold keys in IH'.
  destruct (n =? c)%Z; cbn [map fst]; now rewrite IH'.
Qed.

(** C5. The ranking holds every distinct token once, with the number of
    its occurrences; the counts never increase along it, so a token with a
    greater count always stands before one with a smaller count; and the
    tokens of one count stand in the order in which the text first shows
    them.  For [the the cat cat dog] the ranking, and the output, is [the],
    [cat], [dog]. *)
Theorem ranking_descending_stable (s : string) :
  Permutation (keys (ranking s)) (first_seen (tokens s))
  /\ (forall w c, In (w, c) (ranking s) ->
                  c = Z.of_nat (count_occ string_dec (tokens s) w))
  /\ StronglySorted by_count (ranking s)
  /\ (forall c,
        keys (filter (fun e => snd e =? c)%Z (ranking s))
        = filter (fun w =>
                    Z.of_nat (count_occ string_dec (tokens s) w) =? c)%Z
                 (first_seen (tokens s)))
  /\ ranking "the the cat cat dog" = [("the", 2); ("cat", 2); ("dog", 1)]%Z
  /\ emitted "the the cat cat dog" TOP_N_WORDS
     = [("the", 2); ("cat", 2); ("dog", 1)]%Z.
Proof.
  split; [| split; [| split; [| split; [| split]]]].
  - rewrite <- keys_count_words. unfold keys.
    apply Permutation_map, ranking_perm.
  - intros w c Hin.
    apply (Permutation_in _ (ranking_perm s)) in Hin.
    now apply count_words_entry in Hin.
  - apply sorted_by_count_sorted.
  - intros c. unfold ranking. cbv zeta. fold (tokens s).
    rewrite sorted_by_count_stable, <- keys_count_words.
    apply keys_filter_by_count.
    intros w n Hin. now apply count_words_entry in Hin.
  - vm_compute. reflexivity.
  - vm_compute. reflexivity.
Qed.

(** C4. Whatever the text and whatever [N], no entry written by
    [printTopNwords] is the marker [XXX], and the marker takes no slot:
    when the text has at least [N + 1] distinct tokens other than the
    marker, exactly [N] entries are written (none when [N] is negative),
    wherever the marker ranks.  The lines added to the report are the lines
    of these entries. *)
Theorem marker_excluded (s : string) (N : Z) (report : csv_file) :
  (forall w c, In (w, c) (emitted s N) -> w <> "XXX")
  /\ ((N + 1 <= Z.of_nat (List.length
                           (filter non_marker (first_seen (tokens s)))))%Z ->
      List.length (emitted s N) = Z.to_nat N)
  /\ emitted s N
     = firstn (Z.to_nat N)
              (filter (fun e => non_marker (fst e)) (ranking s))
  /\ fst (printTopNwords s N report)
     = Some (file_text report ++ top_section (emitted s N)).
Proof.
  split; [| split; [| split]].
  - intros w c Hin. rewrite emitted_spec in Hin.
    apply In_firstn_In, filter_In in Hin. destruct Hin as [_ Hnm].
    cbn [fst] in Hnm. unfold non_marker in Hnm.
    apply negb_true_iff, String.eqb_neq in Hnm. exact Hnm.
  - intros HN. rewrite emitted_spec, length_firstn, ranking_non_marker_length.
    lia.
  - apply emitted_spec.
  - rewrite printTopNwords_text. reflexivity.
Qed.

(** A text whose most frequent token is the marker: four sentences, three
    distinct words, two slots. *)
Lemma marker_excluded_witness :
  (2 + 1 <= Z.of_nat
              (List.length
                 (filter non_marker
                    (first_seen (tokens (getData ["Go. Stop. Go! Now?"]))))))%Z
  /\ List.length (emitted (getData ["Go. Stop. Go! Now?"]) 2) = Z.to_nat 2.
Proof.
  assert (H : (2 + 1 <= Z.of_nat
                 (List.length
                    (filter non_marker
                       (first_seen
                          (tokens (getData ["Go. Stop. Go! Now?"]))))))%Z)
    by (vm_compute; discriminate).
  split; [exact H |].
  exact (proj1 (proj2 (marker_excluded (getData ["Go. Stop. Go! Now?"]) 2 None))
           H).
Defined.

(* ================================================================== *)
(** * The run *)
(* ================================================================== *)

Lemma printReadingLevelReport_text S W T ease level report :
  printReadingLevelReport S W T ease level report
  = Some (metrics_section S W T ease level).
Proof.
  unfold printReadingLevelReport, metrics_section. cbv zeta.
  cbn [append]. rewrite ?append_assoc. reflexivity.
Qed.

Lemma counts_nonneg s :
  (0 <= getNumberOfTotalWords s)%Z /\ (0 <= getNumberOfTotalSentences s)%Z.
Proof.
  unfold getNumberOfTotalWords, getNumberOfTotalSentences. cbv zeta. lia.
Qed.

(** C8. A run on a text without words or without sentences leaves the
    report file as it was and ends its console output with the diagnostic
    message.  Every other run computes the two scores and leaves in the
    report file the two sections, whatever the file held.  There is no
    third outcome: no run ends in an exception. *)
Theorem main_degenerate_exit (INPUT : list string) (report : csv_file) :
  let fileAsString := getData INPUT in
  let S := getNumberOfTotalSyllables fileAsString in
  let W := getNumberOfTotalWords fileAsString in
  let T := getNumberOfTotalSentences fileAsString in
  (W = 0%Z \/ T = 0%Z ->
   main INPUT report
   = Some (report,
           (snd (getNumberOfTotalSyllables_io fileAsString)
            ++ [error_message])%list))
  /\ (W <> 0%Z /\ T <> 0%Z ->
      exists readingEase readingLevel out,
        compute_FleschReadingEase S W T = Some readingEase
        /\ compute_FleschKincaidGradeLevel S W T = Some readingLevel
        /\ main INPUT report
           = Some (Some (metrics_section S W T readingEase readingLevel
                         ++ top_section (emitted fileAsString TOP_N_WORDS)),
                   out))
  /\ main INPUT report <> None.
Proof.
  intros fileAsString S W T.
  pose proof (counts_nonneg fileAsString) as [HW HT]. fold W T in HW, HT.
  assert (Hdeg : W = 0%Z \/ T = 0%Z ->
                 main INPUT report
                 = Some (report,
                         (snd (getNumberOfTotalSyllables_io fileAsString)
                          ++ [error_message])%list)).
  { intros Hz. unfold main. cbv zeta. fold fileAsString W T.
    destruct (getNumberOfTotalSyllables_io fileAsString) as [n out].
    replace ((0 <? W)%Z && (0 <? T)%Z) with false; [reflexivity |].
    symmetry. apply andb_false_iff.
    destruct Hz as [-> | ->]; [left | right]; reflexivity. }
  assert (Hrun : W <> 0%Z /\ T <> 0%Z ->
                 exists readingEase readingLevel out,
                   compute_FleschReadingEase S W T = Some readingEase
                   /\ compute_FleschKincaidGradeLevel S W T
                      = Some readingLevel
                   /\ main INPUT report
                      = Some (Some (metrics_section S W T
                                      readingEase readingLevel
                                    ++ top_section
                                         (emitted fileAsString TOP_N_WORDS)),
                              out)).
  { intros [HW0 HT0]. unfold main. cbv zeta.
    fold fileAsString W T.
    unfold S, getNumberOfTotalSyllables.
    destruct (getNumberOfTotalSyllables_io fileAsString) as [n out].
    cbn [fst].
    replace ((0 <? W)%Z && (0 <? T)%Z) with true
      by (symmetry; apply andb_true_iff; split; apply Z.ltb_lt; lia).
    destruct (formulas_defined n W T) as [He Hl].
    destruct (compute_FleschReadingEase n W T) as [ease |];
      [| congruence].
    destruct (compute_FleschKincaidGradeLevel n W T) as [level |];
      [| congruence].
    exists ease, level.
    rewrite printReadingLevelReport_text, printTopNwords_text.
    cbn [file_text]. eexists. repeat split. }
  split; [exact Hdeg |]. split; [exact Hrun |].
  destruct (Z.eq_dec W 0) as [E | NW].
  - rewrite Hdeg by now left. discriminate.
  - destruct (Z.eq_dec T 0) as [E | NT].
    + rewrite Hdeg by now right. discriminate.
    + destruct (Hrun (conj NW NT)) as (e & l & out & _ & _ & ->).
      discriminate.
Qed.

(** A file with words and no sentence end, and the worked example. *)
Lemma main_degenerate_exit_witness :
  (getNumberOfTotalWords (getData ["no sentence end"]) = 0%Z
   \/ getNumberOfTotalSentences (getData ["no sentence end"]) = 0%Z)
  /\ option_map fst (main ["no sentence end"] (Some "old report"))
     = Some (Some "old report")
  /\ (getNumberOfTotalWords (getData [example_line]) <> 0%Z
      /\ getNumberOfTotalSentences (getData [example_line]) <> 0%Z)
  /\ (exists text, option_map fst (main [example_line] (Some "old report"))
                   = Some (Some text)).
Proof.
  assert (H1 : getNumberOfTotalWords (getData ["no sentence end"]) = 0%Z
               \/ getNumberOfTotalSentences (getData ["no sentence end"])
                  = 0%Z)
    by (right; vm_compute; reflexivity).
  assert (H2 : getNumberOfTotalWords (getData [example_line]) <> 0%Z
               /\ getNumberOfTotalSentences (getData [example_line]) <> 0%Z)
    by (split; vm_compute; discriminate).
  split; [exact H1 |]. split; [| split; [exact H2 |]].
  - rewrite (proj1 (main_degenerate_exit ["no sentence end"]
                      (Some "old report")) H1).
    reflexivity.
  - destruct (proj1 (proj2 (main_degenerate_exit [example_line]
                              (Some "old report"))) H2)
      as (e & l & out & _ & _ & E).
    rewrite E. eexists. reflexivity.
Defined.

(* ================================================================== *)
(** * Further properties of the normaliser *)
(* ================================================================== *)

Lemma In_string_app c a b :
  In_string c (a ++ b) <-> In_string c a \/ In_string c b.
Proof.
  induction a as [| d a IH]; cbn [append In_string]; [tauto |].
  rewrite IH. tauto.
Qed.

Lemma lower_char_not_X c : PyStr.lower_char c <> "X"%char.
Proof.
  destruct c as [[] [] [] [] [] [] [] []]; vm_compute; discriminate.
Qed.

Lemma lower_no_X s : ~ In_string "X" (PyStr.lower s).
Proof.
  induction s as [| c r IH]; cbn [PyStr.lower In_string]; [tauto |].
  intros [H | H]; [now apply (lower_char_not_X c) | now apply IH].
Qed.

(** A replacement brings in no character that is not in the new text. *)
Lemma In_replace_from c old new s :
  forall skip,
  In_string c (PyStr.replace_from old new skip s) ->
  In_string c new \/ In_string c s.
Proof.
  induction s as [| d r IH]; intros skip H;
    cbn [PyStr.replace_from In_string] in *; [tauto |].
  destruct skip as [| k].
  - destruct (PyStr.startswith old (String d r)).
    + apply In_string_app in H. destruct H as [H | H]; [now left |].
      apply IH in H. tauto.
    + cbn [In_string] in H. destruct H as [H | H]; [tauto |].
      apply IH in H. tauto.
  - apply IH in H. tauto.
Qed.

Lemma In_replace c x p new s :
  In_string c (PyStr.replace (String x p) new s) ->
  In_string c new \/ In_string c s.
Proof. apply In_replace_from. Qed.

Lemma undot_no_X u : ~ In_string "X" u -> ~ In_string "X" (undot u).
Proof.
  intros Hu H. unfold undot in H. cbv zeta in H.
  repeat (apply In_replace in H;
          destruct H as [H | H];
          [cbn in H; repeat destruct H as [H | H]; try discriminate H; easy
          |]).
  contradiction.
Qed.

Lemma flat_app f a b : flat f (a ++ b) = flat f a ++ flat f b.
Proof.
  induction a as [| c a IH]; cbn [append flat]; [reflexivity |].
  now rewrite IH, append_assoc.
Qed.

(** Replacing a single character rewrites the string character by
    character. *)
Lemma replace_char c new s :
  PyStr.replace (String c EmptyString) new s
  = flat (fun d => if Ascii.eqb c d then new else String d EmptyString) s.
Proof.
  cbn [PyStr.replace].
  induction s as [| d r IH]; cbn [PyStr.replace_from flat]; [reflexivity |].
  unfold PyStr.startswith. rewrite prefix_cons, prefix_empty, andb_true_r.
  cbn [length Nat.sub]. rewrite IH.
  destruct (Ascii.eqb c d); reflexivity.
Qed.

Lemma marks_flat u :
  PyStr.replace "!" " XXX " (PyStr.replace "?" " XXX "
                               (PyStr.replace "." " XXX " u))
  = mark_all u.
Proof.
  rewrite !replace_char. unfold mark_all.
  induction u as [| d r IH]; cbn [flat]; [reflexivity |].
  rewrite !flat_app, IH. f_equal.
  unfold mark_char, is_terminal.
  rewrite (Ascii.eqb_sym d "."), (Ascii.eqb_sym d "?"), (Ascii.eqb_sym d "!").
  destruct (Ascii.eqb_spec "." d) as [<- | H1]; [reflexivity |].
  cbn [flat append].
  destruct (Ascii.eqb_spec "?" d) as [<- | H2]; [reflexivity |].
  cbn [flat append orb].
  destruct (Ascii.eqb_spec "!" d) as [<- | H3]; reflexivity.
Qed.

Lemma undot_and_mark_flat u : undot_and_mark u = mark_all (undot u).
Proof.
  unfold undot_and_mark, undot, SENTENCE_MARKER. cbv zeta.
  cbn [append]. apply marks_flat.
Qed.

Lemma normalize_line_flat l :
  normalize_line l = mark_all (undot (PyStr.lower (PyStr.rstrip l))).
Proof. rewrite normalize_line_stages. apply undot_and_mark_flat. Qed.

(** Counting the markers of a marked string that had no [X] before. *)
Lemma count_marks u :
  forall t, ~ In_string "X" u ->
  PyStr.count_from "XXX" 0 (mark_all u ++ t)
  = terminals u + PyStr.count_from "XXX" 0 t.
Proof.
  unfold mark_all, mark_char.
  induction u as [| d r IH]; intros t Hx; cbn [flat terminals append];
    [reflexivity |].
  cbn [In_string] in Hx.
  assert (Hd : d <> "X"%char) by tauto.
  assert (Hr : ~ In_string "X" r) by tauto.
  rewrite append_assoc.
  destruct (is_terminal d).
  - cbn. rewrite (IH t Hr). reflexivity.
  - cbn [append PyStr.count_from]. unfold PyStr.startswith.
    rewrite prefix_cons.
    destruct (Ascii.eqb_spec "X" d) as [E | _]; [congruence |].
    cbn [andb]. now rewrite (IH t Hr).
Qed.

Lemma normalize_line_count l t :
  PyStr.count_from "XXX" 0 (normalize_line l ++ t)
  = terminals (undot (PyStr.lower (PyStr.rstrip l)))
    + PyStr.count_from "XXX" 0 t.
Proof.
  rewrite normalize_line_flat. apply count_marks, undot_no_X, lower_no_X.
Qed.

Lemma getData_count INPUT :
  PyStr.count_from "XXX" 0 (getData INPUT)
  = list_sum
      (map (fun l => terminals (undot (PyStr.lower (PyStr.rstrip l))))
           INPUT).
Proof.
  induction INPUT as [| l ls IH]; [reflexivity |].
  rewrite getData_cons, normalize_line_count, IH. reflexivity.
Qed.

(** X1. The number of sentences counted on the normalised text of a file is
    the number of full stops, question marks and exclamation marks that its
    lines hold once they are stripped, lowercased and relieved of the dots
    of the six abbreviations. *)
Theorem sentences_are_terminals (INPUT : list string) :
  getNumberOfTotalSentences (getData INPUT)
  = Z.of_nat
      (list_sum
         (map (fun l => terminals (undot (PyStr.lower (PyStr.rstrip l))))
              INPUT)).
Proof.
  unfold getNumberOfTotalSentences, SENTENCE_MARKER. cbn [PyStr.count].
  now rewrite getData_count.
Qed.

Lemma In_flat c f s :
  In_string c (flat f s) -> exists d, In_string d s /\ In_string c (f d).
Proof.
  induction s as [| x r IH]; cbn [flat In_string]; [contradiction |].
  intros H. apply In_string_app in H. destruct H as [H | H].
  - exists x. split; [now left | exact H].
  - destruct (IH H) as [d [Hd Hc]]. exists d. split; [now right | exact Hc].
Qed.

Lemma In_mark_all c u :
  In_string c (mark_all u) ->
  is_terminal c = false
  /\ (c = " "%char \/ c = "X"%char \/ In_string c u).
Proof.
  intros H. apply In_flat in H. destruct H as [d [Hd Hc]].
  unfold mark_char in Hc. destruct (is_terminal d) eqn:E.
  - cbn in Hc.
    repeat (destruct Hc as [<- | Hc]; [split; [reflexivity | tauto] |]).
    contradiction.
  - cbn in Hc. destruct Hc as [<- | []]. split; [exact E | tauto].
Qed.

Lemma In_getData c INPUT :
  In_string c (getData INPUT) ->
  exists l, In l INPUT /\ In_string c (normalize_line l).
Proof.
  induction INPUT as [| l ls IH]; [contradiction |].
  rewrite getData_cons. intros H. apply In_string_app in H.
  destruct H as [H | H].
  - exists l. split; [now left | exact H].
  - destruct (IH H) as [l' [Hl Hc]]. exists l'. split; [now right | exact Hc].
Qed.

Lemma lower_char_idem c :
  PyStr.lower_char (PyStr.lower_char c) = PyStr.lower_char c.
Proof.
  destruct c as [[] [] [] [] [] [] [] []]; vm_compute; reflexivity.
Qed.

Lemma In_lower c s :
  In_string c (PyStr.lower s) -> exists d, In_string d s /\ c = PyStr.lower_char d.
Proof.
  induction s as [| x r IH]; cbn [PyStr.lower In_string]; [contradiction |].
  intros [H | H].
  - exists x. split; [now left | now symmetry].
  - destruct (IH H) as [d [Hd Hc]]. exists d. split; [now right | exact Hc].
Qed.

Lemma In_undot c u :
  In_string c (undot u) -> PyStr.lower_char c = c \/ In_string c u.
Proof.
  intros H. unfold undot in H. cbv zeta in H.
  repeat (apply In_replace in H;
          destruct H as [H | H];
          [left; cbn in H;
           repeat (destruct H as [<- | H]; [reflexivity |]); contradiction
          |]).
  now right.
Qed.

(** X2. The normalised text of a file holds no full stop, question mark or
    exclamation mark, and no capital letter but the [X] of the marker:
    each of its characters is [X] or is its own lowercase form. *)
Theorem normalised_text_alphabet (INPUT : list string) (c : ascii) :
  In_string c (getData INPUT) ->
  is_terminal c = false /\ (c = "X"%char \/ PyStr.lower_char c = c).
Proof.
  intros H. apply In_getData in H. destruct H as [l [_ H]].
  rewrite normalize_line_flat in H. apply In_mark_all in H.
  destruct H as [Ht H]. split; [exact Ht |].
  destruct H as [-> | [-> | H]]; [right; reflexivity | now left |].
  apply In_undot in H. destruct H as [H | H]; [now right |].
  apply In_lower in H. destruct H as [d [_ ->]].
  right. apply lower_char_idem.
Qed.

Lemma normalised_text_alphabet_witness :
  In_string "t" (getData [example_line])
  /\ is_terminal "t" = false
  /\ ("t"%char = "X"%char \/ PyStr.lower_char "t" = "t"%char).
Proof.
  assert (H : In_string "t" (getData [example_line]))
    by (vm_compute; tauto).
  split; [exact H |].
  exact (normalised_text_alphabet [example_line] "t" H).
Defined.

(** ** Lines without sentence ends, blank lines, trailing whitespace *)

Lemma prefix_In p :
  forall s, prefix p s = true -> forall c, In_string c p -> In_string c s.
Proof.
  induction p as [| x p IH]; intros s H c Hc; cbn [In_string] in Hc;
    [contradiction |].
  destruct s as [| y s]; [discriminate |].
  rewrite prefix_cons in H. apply andb_true_iff in H. destruct H as [Hxy H].
  apply Ascii.eqb_eq in Hxy. subst y. cbn [In_string].
  destruct Hc as [Hc | Hc]; [now left | right; now apply (IH s)].
Qed.

(** A pattern with a character the string lacks is found nowhere. *)
Lemma replace_absent c x p new s :
  In_string c (String x p) -> ~ In_string c s ->
  PyStr.replace (String x p) new s = s.
Proof.
  intros Hc. cbn [PyStr.replace].
  induction s as [| d r IH]; intros Hs; cbn [PyStr.replace_from];
    [reflexivity |].
  unfold PyStr.startswith.
  destruct (prefix (String x p) (String d r)) eqn:E.
  - exfalso. apply Hs. now apply (prefix_In _ _ E).
  - rewrite IH; [reflexivity |]. cbn [In_string] in Hs. tauto.
Qed.

Lemma In_rstrip c s : In_string c (PyStr.rstrip s) -> In_string c s.
Proof.
  induction s as [| d r IH]; cbn [PyStr.rstrip In_string]; [tauto |].
  destruct (PyStr.rstrip r) as [| e r'].
  - destruct (PyStr.isspace d); cbn [In_string]; tauto.
  - cbn [In_string] in *. tauto.
Qed.

Lemma lower_char_terminal d :
  is_terminal (PyStr.lower_char d) = true -> PyStr.lower_char d = d.
Proof.
  destruct d as [[] [] [] [] [] [] [] []]; vm_compute;
    intros H; first [reflexivity | discriminate H].
Qed.

Lemma no_terminal_stripped l c :
  (forall c, In_string c l -> is_terminal c = false) ->
  is_terminal c = true ->
  ~ In_string c (PyStr.lower (PyStr.rstrip l)).
Proof.
  intros Hl Hc H. apply In_lower in H. destruct H as [d [Hd E]].
  apply In_rstrip in Hd. subst c.
  rewrite (lower_char_terminal d Hc) in Hc.
  rewrite (Hl d Hd) in Hc. discriminate.
Qed.

Lemma undot_without_dot u : ~ In_string "." u -> undot u = u.
Proof.
  intros H. unfold undot. cbv zeta.
  rewrite !(replace_absent "." _ _ _ u) by (first [exact H | cbn; tauto]).
  reflexivity.
Qed.

Lemma mark_all_without_terminal u :
  (forall c, is_terminal c = true -> ~ In_string c u) -> mark_all u = u.
Proof.
  unfold mark_all.
  induction u as [| d r IH]; intros H; cbn [flat]; [reflexivity |].
  unfold mark_char at 1. destruct (is_terminal d) eqn:E.
  - exfalso. apply (H d E). now left.
  - cbn [append]. rewrite IH; [reflexivity |].
    intros c Hc Hin. apply (H c Hc). now right.
Qed.

(** X3. A line without a full stop, question mark or exclamation mark is
    only stripped of its trailing whitespace and lowercased: no
    abbreviation is touched and no marker is put in. *)
Theorem line_without_sentence_end (l : string) :
  (forall c, In_string c l -> is_terminal c = false) ->
  normalize_line l = PyStr.lower (PyStr.rstrip l).
Proof.
  intros Hl. rewrite normalize_line_flat.
  rewrite undot_without_dot by (apply no_terminal_stripped; auto).
  apply mark_all_without_terminal.
  intros c Hc. now apply no_terminal_stripped.
Qed.

Lemma line_without_sentence_end_witness :
  (forall c, In_string c "Hello World  " -> is_terminal c = false)
  /\ normalize_line "Hello World  " = "hello world".
Proof.
  assert (H : forall c, In_string c "Hello World  " -> is_terminal c = false).
  { intros c Hc. cbn in Hc.
    repeat (destruct Hc as [<- | Hc]; [reflexivity |]). contradiction. }
  split; [exact H |].
  rewrite (line_without_sentence_end "Hello World  " H). reflexivity.
Defined.

Lemma terminals_zero u :
  (forall c, is_terminal c = true -> ~ In_string c u) -> terminals u = 0.
Proof.
  induction u as [| d r IH]; intros H; cbn [terminals]; [reflexivity |].
  destruct (is_terminal d) eqn:E.
  - exfalso. apply (H d E). now left.
  - rewrite IH; [reflexivity |].
    intros c Hc Hin. apply (H c Hc). now right.
Qed.

Lemma list_sum_zero (f : string -> nat) l :
  (forall x, In x l -> f x = 0) -> list_sum (map f l) = 0.
Proof.
  induction l as [| x l IH]; intros H; [reflexivity |].
  change (f x + list_sum (map f l) = 0).
  rewrite (H x) by now left.
  apply IH. intros y Hy. apply H. now right.
Qed.

Lemma main_no_sentences INPUT report :
  getNumberOfTotalSentences (getData INPUT) = 0%Z ->
  main INPUT report
  = Some (report,
          (snd (getNumberOfTotalSyllables_io (getData INPUT))
           ++ [error_message])%list).
Proof.
  intros HT. unfold main. cbv zeta. rewrite HT.
  destruct (getNumberOfTotalSyllables_io (getData INPUT)) as [n out].
  rewrite andb_false_r. reflexivity.
Qed.

(** X4. A file none of whose lines holds a full stop, question mark or
    exclamation mark counts no sentence, however many words it has; the run
    then leaves the report file as it was and ends with the diagnostic
    message. *)
Theorem text_without_sentence_end (INPUT : list string) (report : csv_file) :
  (forall l, In l INPUT -> forall c, In_string c l -> is_terminal c = false) ->
  getNumberOfTotalSentences (getData INPUT) = 0%Z
  /\ main INPUT report
     = Some (report,
             (snd (getNumberOfTotalSyllables_io (getData INPUT))
              ++ [error_message])%list).
Proof.
  intros H.
  assert (HT : getNumberOfTotalSentences (getData INPUT) = 0%Z).
  { unfold getNumberOfTotalSentences, SENTENCE_MARKER. cbn [PyStr.count].
    rewrite getData_count, list_sum_zero; [reflexivity |].
    intros l Hl.
    rewrite undot_without_dot
      by (apply no_terminal_stripped; [now apply H | reflexivity]).
    apply terminals_zero.
    intros c Hc. apply no_terminal_stripped; [now apply H | exact Hc]. }
  split; [exact HT | now apply main_no_sentences].
Qed.

Lemma text_without_sentence_end_witness :
  (forall l, In l ["Roses are red"; "violets are blue"] ->
   forall c, In_string c l -> is_terminal c = false)
  /\ getNumberOfTotalWords
       (getData ["Roses are red"; "violets are blue"]) = 5%Z
  /\ option_map fst
       (main ["Roses are red"; "violets are blue"] (Some "old report"))
     = Some (Some "old report").
Proof.
  assert (H : forall l, In l ["Roses are red"; "violets are blue"] ->
              forall c, In_string c l -> is_terminal c = false).
  { intros l [<- | [<- | []]] c Hc; cbn in Hc;
      repeat (destruct Hc as [<- | Hc]; [reflexivity |]); contradiction. }
  split; [exact H |]. split; [vm_compute; reflexivity |].
  rewrite (proj2 (text_without_sentence_end
                    ["Roses are red"; "violets are blue"]
                    (Some "old report") H)).
  reflexivity.
Defined.

Lemma rstrip_blank ws : blank ws -> PyStr.rstrip ws = EmptyString.
Proof.
  unfold blank. induction ws as [| c r IH]; intros H; [reflexivity |].
  cbn [PyStr.rstrip].
  rewrite IH by (intros d Hd; apply H; now right).
  rewrite (H c) by now left. reflexivity.
Qed.

Lemma rstrip_app_blank l ws :
  blank ws -> PyStr.rstrip (l ++ ws) = PyStr.rstrip l.
Proof.
  intros H. induction l as [| c r IH]; cbn [append].
  - now rewrite rstrip_blank.
  - cbn [PyStr.rstrip]. now rewrite IH.
Qed.

(** X5. Whitespace at the end of a line, its line break included, leaves
    no trace in the normalised text, and a line of whitespace only
    contributes nothing to it. *)
Theorem trailing_whitespace_ignored
  (before after : list string) (l ws : string) :
  blank ws ->
  normalize_line (l ++ ws) = normalize_line l
  /\ getData (before ++ (l ++ ws)%string :: after)%list
     = getData (before ++ l :: after)%list
  /\ getData (before ++ ws :: after)%list = getData (before ++ after)%list.
Proof.
  intros H.
  assert (E : normalize_line (l ++ ws) = normalize_line l)
    by (now rewrite !normalize_line_stages, rstrip_app_blank).
  split; [exact E |]. split.
  - now rewrite !getData_app, !getData_cons, E.
  - rewrite !getData_app, getData_cons, normalize_line_stages.
    rewrite rstrip_blank by exact H. reflexivity.
Qed.

Lemma trailing_whitespace_ignored_witness :
  blank (" " ++ nl)
  /\ normalize_line ("Stop!" ++ (" " ++ nl)) = normalize_line "Stop!".
Proof.
  assert (H : blank (" " ++ nl)).
  { intros c Hc. cbn in Hc.
    repeat (destruct Hc as [<- | Hc]; [reflexivity |]). contradiction. }
  split; [exact H |].
  exact (proj1 (trailing_whitespace_ignored [] [] "Stop!" (" " ++ nl) H)).
Defined.

(* ================================================================== *)
(** * Further properties of the words and of the ranking *)
(* ================================================================== *)

(** What [split] gives: runs that are not empty, hold no whitespace and are
    made of characters of the string. *)
Lemma split_from_inv s :
  forall cur w,
  (forall c, In_string c cur -> PyStr.isspace c = false) ->
  In w (PyStr.split_from cur s) ->
  w <> EmptyString
  /\ (forall c, In_string c w -> PyStr.isspace c = false)
  /\ (forall c, In_string c w -> In_string c cur \/ In_string c s).
Proof.
  induction s as [| x r IH]; intros cur w Hcur Hin;
    cbn [PyStr.split_from] in Hin.
  - destruct cur as [| a cur']; [contradiction |].
    destruct Hin as [<- | []].
    split; [discriminate |]. split; [exact Hcur | tauto].
  - destruct (PyStr.isspace x) eqn:Ex.
    + assert (Hrest : In w (PyStr.split_from EmptyString r) ->
                      w <> EmptyString
                      /\ (forall c, In_string c w -> PyStr.isspace c = false)
                      /\ (forall c, In_string c w ->
                                    In_string c cur
                                    \/ In_string c (String x r))).
      { intros H. apply IH in H; [| contradiction].
        destruct H as (H1 & H2 & H3). split; [exact H1 |].
        split; [exact H2 |]. intros c Hc.
        destruct (H3 c Hc) as [[] | H]. right. now right. }
      destruct cur as [| a cur']; [now apply Hrest |].
      destruct Hin as [<- | Hin]; [| now apply Hrest].
      split; [discriminate |]. split; [exact Hcur | tauto].
    + apply IH in Hin.
      * destruct Hin as (H1 & H2 & H3). split; [exact H1 |].
        split; [exact H2 |]. intros c Hc.
        destruct (H3 c Hc) as [H | H]; [| right; now right].
        apply In_string_app in H. cbn [In_string] in H.
        destruct H as [H | [H | []]]; [now left | right; now left].
      * intros c Hc. apply In_string_app in Hc. cbn [In_string] in Hc.
        destruct Hc as [Hc | [<- | []]]; [now apply Hcur | exact Ex].
Qed.

Lemma split_inv s w :
  In w (PyStr.split s) ->
  w <> EmptyString
  /\ (forall c, In_string c w -> PyStr.isspace c = false /\ In_string c s).
Proof.
  intros H. apply split_from_inv in H; [| contradiction].
  destruct H as (H1 & H2 & H3). split; [exact H1 |].
  intros c Hc. split; [now apply H2 |].
  destruct (H3 c Hc) as [[] | H]. exact H.
Qed.

(** X6. Every word that the word count counts and that the syllable total
    hands to [syllablesPerWord] is non-empty, holds no whitespace, and is
    made of characters of the text. *)
Theorem counted_words_shape (s w : string) :
  In w (PyStr.split (PyStr.replace SENTENCE_MARKER " " s)) ->
  w <> EmptyString
  /\ (forall c, In_string c w -> PyStr.isspace c = false /\ In_string c s).
Proof.
  intros H. apply split_inv in H. destruct H as [H1 H2].
  split; [exact H1 |]. intros c Hc. destruct (H2 c Hc) as [Hs Hin].
  split; [exact Hs |].
  apply In_replace in Hin. destruct Hin as [Hin | Hin]; [| exact Hin].
  cbn in Hin. destruct Hin as [<- | []]. discriminate Hs.
Qed.

Lemma counted_words_shape_witness :
  In "dog" (PyStr.split
              (PyStr.replace SENTENCE_MARKER " " (getData [example_line])))
  /\ "dog" <> EmptyString.
Proof.
  assert (H : In "dog"
                (PyStr.split
                   (PyStr.replace SENTENCE_MARKER " "
                      (getData [example_line]))))
    by (vm_compute; tauto).
  split; [exact H |].
  exact (proj1 (counted_words_shape (getData [example_line]) "dog" H)).
Defined.

Lemma In_remove_punctuation c s :
  In_string c (remove_punctuation s) ->
  In_string c s /\ PyStr.contains_char c punctuation = false.
Proof.
  unfold remove_punctuation. rewrite remove_punctuation_loop_spec.
  cbn [append]. intros H. apply In_filter_chars in H.
  destruct H as [H1 H2]. split; [exact H1 | now apply negb_true_iff in H2].
Qed.

(** X7. Every entry of the ranking pairs a non-empty word, free of
    whitespace and of punctuation, with a count of at least 1, and no word
    has two entries. *)
Theorem ranking_entries_shape (s : string) :
  NoDup (keys (ranking s))
  /\ (forall w c, In (w, c) (ranking s) ->
        w <> EmptyString
        /\ (1 <= c)%Z
        /\ (forall ch, In_string ch w ->
              PyStr.isspace ch = false
              /\ PyStr.contains_char ch punctuation = false)).
Proof.
  split.
  - apply (Permutation_NoDup (l := first_seen (tokens s)));
      [| apply first_seen_NoDup].
    symmetry. rewrite <- keys_count_words. unfold keys.
    apply Permutation_map, ranking_perm.
  - intros w c Hin.
    apply (Permutation_in _ (ranking_perm s)) in Hin.
    apply count_words_entry in Hin. destruct Hin as [-> Hw].
    pose proof (proj1 (count_occ_In string_dec (tokens s) w) Hw) as Hpos.
    unfold tokens in Hw. apply split_inv in Hw. destruct Hw as [Hne Hch].
    split; [exact Hne |]. split; [lia |].
    intros ch Hc. destruct (Hch ch Hc) as [Hs Hin]. split; [exact Hs |].
    now apply In_remove_punctuation in Hin.
Qed.

Lemma sum_counts_set w v d :
  sum_counts (dict_set w v d)
  = (sum_counts d + v
     - match dict_get w d with Some n => n | None => 0 end)%Z.
Proof.
  unfold sum_counts.
  induction d as [| [k n] r IH]; cbn [dict_set dict_get map snd fold_right].
  - lia.
  - destruct (w =? k)%string; cbn [map snd fold_right]; [lia |].
    rewrite IH. lia.
Qed.

Lemma sum_counts_step d w :
  sum_counts (count_step d w) = (sum_counts d + 1)%Z.
Proof.
  unfold count_step.
  destruct (dict_get w d) as [n |] eqn:E; rewrite sum_counts_set, E; lia.
Qed.

Lemma sum_counts_fold l :
  forall d,
  sum_counts (fold_left count_step l d)
  = (sum_counts d + Z.of_nat (List.length l))%Z.
Proof.
  induction l as [| w l IH]; intros d; cbn [fold_left List.length].
  - lia.
  - rewrite IH, sum_counts_step. lia.
Qed.

Lemma sum_counts_perm d d' :
  Permutation d d' -> sum_counts d = sum_counts d'.
Proof.
  unfold sum_counts.
  induction 1 as [| x l l' _ IH | x y l | l l' l'' _ IH1 _ IH2];
    cbn [map fold_right]; lia.
Qed.

(** X8. The counts of the ranking add up to the number of tokens of the
    text: every token is counted once, under its own word. *)
Theorem ranking_counts_total (s : string) :
  sum_counts (ranking s) = Z.of_nat (List.length (tokens s)).
Proof.
  rewrite (sum_counts_perm _ _ (ranking_perm s)).
  unfold count_words. rewrite sum_counts_fold. reflexivity.
Qed.

(** X9. The number of entries written is the smaller of [N] (0 when [N] is
    negative) and the number of distinct tokens other than the marker; when
    there are at most [N] of these, all of them are written. *)
Theorem emitted_length (s : string) (N : Z) :
  List.length (emitted s N)
  = Nat.min (Z.to_nat N)
            (List.length (filter non_marker (first_seen (tokens s))))
  /\ ((Z.of_nat (List.length (filter non_marker (first_seen (tokens s))))
       <= N)%Z ->
      emitted s N = filter (fun e => non_marker (fst e)) (ranking s)).
Proof.
  split.
  - now rewrite emitted_spec, length_firstn, ranking_non_marker_length.
  - intros H. rewrite emitted_spec. apply firstn_all2.
    rewrite ranking_non_marker_length. lia.
Qed.

Lemma emitted_length_witness :
  (Z.of_nat
     (List.length
        (filter non_marker (first_seen (tokens (getData [example_line])))))
   <= TOP_N_WORDS)%Z
  /\ List.length (emitted (getData [example_line]) TOP_N_WORDS) = 5.
Proof.
  assert (H : (Z.of_nat
                 (List.length
                    (filter non_marker
                       (first_seen (tokens (getData [example_line])))))
               <= TOP_N_WORDS)%Z)
    by (vm_compute; discriminate).
  split; [exact H |].
  rewrite (proj2 (emitted_length (getData [example_line]) TOP_N_WORDS) H).
  reflexivity.
Defined.

Lemma StronglySorted_filter (f : string * Z -> bool) l :
  StronglySorted by_count l -> StronglySorted by_count (filter f l).
Proof.
  induction 1 as [| x l Hs IH Hx]; cbn [filter]; [constructor |].
  destruct (f x); [| exact IH].
  constructor; [exact IH |].
  rewrite Forall_forall in *. intros y Hy. apply filter_In in Hy.
  apply Hx. tauto.
Qed.

Lemma StronglySorted_firstn n :
  forall l : dict,
  StronglySorted by_count l -> StronglySorted by_count (firstn n l).
Proof.
  induction n as [| n IH]; intros l Hs; [constructor |].
  destruct Hs as [| x l Hs Hx]; cbn [firstn]; [constructor |].
  constructor; [now apply IH |].
  rewrite Forall_forall in *. intros y Hy. apply Hx.
  now apply (In_firstn_In y n).
Qed.

(** X10. The entries written to the report are entries of the ranking and
    come in the order of the ranking: their counts never increase from one
    line to the next. *)
Theorem emitted_in_order (s : string) (N : Z) :
  StronglySorted by_count (emitted s N)
  /\ (forall e, In e (emitted s N) -> In e (ranking s)).
Proof.
  rewrite emitted_spec. split.
  - apply StronglySorted_firstn, StronglySorted_filter,
      sorted_by_count_sorted.
  - intros e He. apply In_firstn_In, filter_In in He. tauto.
Qed.

(** ** Words and markers *)

Lemma getData_flat INPUT : getData INPUT = mark_all (undotted_text INPUT).
Proof.
  induction INPUT as [| l ls IH]; [reflexivity |].
  rewrite getData_cons, normalize_line_flat, IH.
  cbn [undotted_text fold_right]. unfold mark_all. now rewrite flat_app.
Qed.

Lemma undotted_text_no_X INPUT : ~ In_string "X" (undotted_text INPUT).
Proof.
  induction INPUT as [| l ls IH]; cbn [undotted_text fold_right In_string];
    [tauto |].
  intros H. apply In_string_app in H. destruct H as [H | H].
  - now apply (undot_no_X _ (lower_no_X (PyStr.rstrip l))).
  - now apply IH.
Qed.

Lemma no_X_non_marker cur : ~ In_string "X" cur -> non_marker cur = true.
Proof.
  intros H. unfold non_marker. apply negb_true_iff, String.eqb_neq.
  intros ->. apply H. now left.
Qed.

(** Blanking the markers and then splitting gives the tokens other than
    the marker. *)
Lemma split_marked u :
  forall cur, ~ In_string "X" u -> ~ In_string "X" cur ->
  PyStr.split_from cur (PyStr.replace_from "XXX" " " 0 (mark_all u))
  = filter non_marker (PyStr.split_from cur (mark_all u)).
Proof.
  unfold mark_all, mark_char.
  induction u as [| d r IH]; intros cur Hu Hcur; cbn [flat].
  - cbn. destruct cur as [| a cur']; [reflexivity |].
    cbn [filter]. now rewrite (no_X_non_marker _ Hcur).
  - cbn [In_string] in Hu.
    assert (Hd : d <> "X"%char) by tauto.
    assert (Hr : ~ In_string "X" r) by tauto.
    destruct (is_terminal d).
    + cbn. rewrite (IH EmptyString Hr) by (cbn; tauto).
      destruct cur as [| a cur']; [reflexivity |].
      cbn [filter]. now rewrite (no_X_non_marker _ Hcur).
    + cbn [append PyStr.replace_from]. unfold PyStr.startswith.
      rewrite prefix_cons.
      destruct (Ascii.eqb_spec "X" d) as [E | _]; [congruence |].
      cbn [andb PyStr.split_from].
      destruct (PyStr.isspace d).
      * rewrite (IH EmptyString Hr) by (cbn; tauto).
        destruct cur as [| a cur']; [reflexivity |].
        cbn [filter]. now rewrite (no_X_non_marker _ Hcur).
      * apply IH; [exact Hr |].
        intros H. apply In_string_app in H. cbn [In_string] in H.
        destruct H as [H | [H | []]]; [now apply Hcur | now apply Hd].
Qed.

(** X11. On the normalised text of a file the words that are counted are
    its whitespace-separated tokens other than the marker, in order: a
    marker is never counted as a word and never glued to one. *)
Theorem words_are_non_marker_tokens (INPUT : list string) :
  PyStr.split (PyStr.replace SENTENCE_MARKER " " (getData INPUT))
  = filter non_marker (PyStr.split (getData INPUT))
  /\ getNumberOfTotalWords (getData INPUT)
     = Z.of_nat
         (List.length (filter non_marker (PyStr.split (getData INPUT)))).
Proof.
  assert (E : PyStr.split (PyStr.replace SENTENCE_MARKER " " (getData INPUT))
              = filter non_marker (PyStr.split (getData INPUT))).
  { rewrite getData_flat. unfold PyStr.split, SENTENCE_MARKER.
    cbn [PyStr.replace].
    apply split_marked; [apply undotted_text_no_X | cbn; tauto]. }
  split; [exact E |].
  unfold getNumberOfTotalWords. cbv zeta. now rewrite E.
Qed.

(* ================================================================== *)
(** * Further properties of the estimator and of the formulas *)
(* ================================================================== *)

Lemma lower_idem s : PyStr.lower (PyStr.lower s) = PyStr.lower s.
Proof.
  induction s as [| c r IH]; cbn [PyStr.lower]; [reflexivity |].
  now rewrite lower_char_idem, IH.
Qed.

(** X12. The estimate does not depend on letter case: two words with the
    same lowercase form get the same estimate, and a word gets the estimate
    of its lowercase form. *)
Theorem syllablesPerWord_ignores_case (w1 w2 : string) :
  (PyStr.lower w1 = PyStr.lower w2 ->
   syllablesPerWord w1 = syllablesPerWord w2)
  /\ syllablesPerWord (PyStr.lower w1) = syllablesPerWord w1.
Proof.
  unfold syllablesPerWord, syllablesPerWord_io. cbv zeta. cbn [fst].
  split.
  - intros ->. reflexivity.
  - now rewrite lower_idem.
Qed.

Lemma syllablesPerWord_ignores_case_witness :
  PyStr.lower "QUEUE" = PyStr.lower "Queue"
  /\ syllablesPerWord "QUEUE" = syllablesPerWord "Queue".
Proof.
  assert (H : PyStr.lower "QUEUE" = PyStr.lower "Queue") by reflexivity.
  split; [exact H |].
  exact (proj1 (syllablesPerWord_ignores_case "QUEUE" "Queue") H).
Defined.

Lemma vowel_heads_le_1 c r :
  total (fun v => if prefix v (String c r) then 1 else 0) vowelList <= 1.
Proof.
  unfold total, vowelList. cbn [map list_sum].
  rewrite !prefix_cons, ?prefix_empty.
  split_ascii; cbn; lia.
Qed.

Lemma vowels_le_length s :
  total (fun v => overlapping v s) vowelList <= length s.
Proof.
  induction s as [| c r IH]; [vm_compute; lia |].
  cbn [overlapping length]. rewrite total_plus.
  pose proof (vowel_heads_le_1 c r). lia.
Qed.

Lemma lower_length s : length (PyStr.lower s) = length s.
Proof.
  induction s as [| c r IH]; cbn [PyStr.lower length]; [reflexivity |].
  now rewrite IH.
Qed.

Lemma steps_le_vowels w :
  (drop_diphthongs w (silent_e w (count_vowels w)) <= count_vowels w)%Z.
Proof.
  unfold drop_diphthongs. rewrite fold_left_minus.
  assert (silent_e w (count_vowels w) <= count_vowels w)%Z.
  { unfold silent_e.
    destruct (PyStr.endswith "e" w && negb (PyStr.mem w specialCases));
      [| lia].
    destruct (negb (count_vowels w =? 0)%Z); lia. }
  lia.
Qed.

(** X13. The estimate of a non-empty word is at most the number of its
    characters, and the estimate of any word is 1 or at most the number of
    its vowel characters. *)
Theorem syllablesPerWord_le_length (word : string) :
  word <> EmptyString ->
  (syllablesPerWord word <= Z.of_nat (length word))%Z
  /\ (syllablesPerWord word
      <= Z.max 1 (count_vowels (PyStr.lower word)))%Z.
Proof.
  intros Hne. rewrite syllablesPerWord_floor. cbv zeta.
  pose proof (steps_le_vowels (PyStr.lower word)) as H1.
  pose proof (vowels_le_length (PyStr.lower word)) as H2.
  rewrite lower_length in H2.
  rewrite count_vowels_overlapping in H1 |- *.
  assert (1 <= length word) by (destruct word; [congruence | cbn; lia]).
  destruct (Z.leb_spec
              (drop_diphthongs (PyStr.lower word)
                 (silent_e (PyStr.lower word)
                    (Z.of_nat
                       (total (fun v => overlapping v (PyStr.lower word))
                          vowelList)))) 0); lia.
Qed.

Lemma syllablesPerWord_le_length_witness :
  "rhythm" <> EmptyString
  /\ (syllablesPerWord "rhythm" <= Z.of_nat (length "rhythm"))%Z.
Proof.
  assert (H : "rhythm" <> EmptyString) by discriminate.
  split; [exact H |].
  exact (proj1 (syllablesPerWord_le_length "rhythm" H)).
Defined.

Lemma syllables_at_least_words s :
  (getNumberOfTotalWords s <= getNumberOfTotalSyllables s)%Z.
Proof.
  unfold getNumberOfTotalSyllables, getNumberOfTotalSyllables_io,
    getNumberOfTotalWords.
  cbv zeta. rewrite syllables_loop.
  pose proof (sum_ge_length
                (PyStr.split (PyStr.replace SENTENCE_MARKER " " s))).
  lia.
Qed.

(** X14. On a text with at least one word and one sentence the syllable
    total is not zero either, so both formulas return a float computed by
    their arithmetic: the guard that returns the integer 0 is not what a
    report shows. *)
Theorem scores_of_a_report_are_floats (s : string) :
  getNumberOfTotalWords s <> 0%Z ->
  getNumberOfTotalSentences s <> 0%Z ->
  getNumberOfTotalSyllables s <> 0%Z
  /\ (exists x,
        compute_FleschReadingEase
          (getNumberOfTotalSyllables s) (getNumberOfTotalWords s)
          (getNumberOfTotalSentences s) = Some (PyFloat x))
  /\ (exists y,
        compute_FleschKincaidGradeLevel
          (getNumberOfTotalSyllables s) (getNumberOfTotalWords s)
          (getNumberOfTotalSentences s) = Some (PyFloat y)).
Proof.
  intros HW HT.
  pose proof (syllables_at_least_words s) as HS.
  pose proof (proj1 (counts_nonneg s)) as HW0.
  assert (HS0 : getNumberOfTotalSyllables s <> 0%Z) by lia.
  split; [exact HS0 |].
  unfold compute_FleschReadingEase, compute_FleschKincaidGradeLevel, truediv.
  apply Z.eqb_neq in HW, HT, HS0. rewrite HW, HT, HS0. cbn [orb].
  split; eexists; reflexivity.
Qed.

Lemma scores_of_a_report_are_floats_witness :
  getNumberOfTotalWords (getData [example_line]) <> 0%Z
  /\ getNumberOfTotalSentences (getData [example_line]) <> 0%Z
  /\ getNumberOfTotalSyllables (getData [example_line]) <> 0%Z.
Proof.
  assert (HW : getNumberOfTotalWords (getData [example_line]) <> 0%Z)
    by (vm_compute; discriminate).
  assert (HT : getNumberOfTotalSentences (getData [example_line]) <> 0%Z)
    by (vm_compute; discriminate).
  split; [exact HW |]. split; [exact HT |].
  exact (proj1 (scores_of_a_report_are_floats (getData [example_line])
                  HW HT)).
Defined.

(* ================================================================== *)
(** * Further properties of punctuation stripping *)
(* ================================================================== *)

Lemma filter_chars_app keep a b :
  filter_chars keep (a ++ b) = filter_chars keep a ++ filter_chars keep b.
Proof.
  induction a as [| c a IH]; cbn [append filter_chars]; [reflexivity |].
  destruct (keep c); cbn [append]; now rewrite IH.
Qed.

Lemma filter_chars_idem keep s :
  filter_chars keep (filter_chars keep s) = filter_chars keep s.
Proof.
  induction s as [| c r IH]; cbn [filter_chars]; [reflexivity |].
  destruct (keep c) eqn:E; [| exact IH].
  cbn [filter_chars]. now rewrite E, IH.
Qed.

Lemma remove_punctuation_filter s :
  remove_punctuation s
  = filter_chars (fun c => negb (PyStr.contains_char c punctuation)) s.
Proof.
  unfold remove_punctuation. now rewrite remove_punctuation_loop_spec.
Qed.

(** X15. Stripping punctuation works piece by piece, so the pieces on both
    sides of a removed character are joined directly; stripping twice is
    stripping once; and the sentence marker passes through untouched. *)
Theorem remove_punctuation_algebra (a b : string) :
  remove_punctuation (a ++ b) = remove_punctuation a ++ remove_punctuation b
  /\ remove_punctuation (remove_punctuation a) = remove_punctuation a
  /\ remove_punctuation (a ++ SENTENCE_MARKER ++ b)
     = remove_punctuation a ++ SENTENCE_MARKER ++ remove_punctuation b.
Proof.
  rewrite !remove_punctuation_filter. split; [| split].
  - apply filter_chars_app.
  - apply filter_chars_idem.
  - now rewrite !filter_chars_app.
Qed.

(* ================================================================== *)
(** * The marker in the frequency table *)
(* ================================================================== *)

Lemma non_marker_count cur l :
  ~ In_string "X" cur ->
  count_occ string_dec (cur :: l) "XXX" = count_occ string_dec l "XXX".
Proof.
  intros H. cbn [count_occ].
  destruct (string_dec cur "XXX") as [-> | _]; [| reflexivity].
  exfalso. apply H. now left.
Qed.

Lemma split_from_marker cur rest :
  PyStr.split_from cur (" XXX " ++ rest)
  = (match cur with EmptyString => [] | _ => [cur] end
     ++ "XXX" :: PyStr.split_from EmptyString rest)%list.
Proof. destruct cur; reflexivity. Qed.

(** After the punctuation is stripped every marker is still a token of its
    own. *)
Lemma marker_tokens u :
  forall cur, ~ In_string "X" u -> ~ In_string "X" cur ->
  count_occ string_dec
    (PyStr.split_from cur
       (filter_chars (fun c => negb (PyStr.contains_char c punctuation))
          (mark_all u)))
    "XXX"
  = terminals u.
Proof.
  unfold mark_all, mark_char.
  set (keep := fun c => negb (PyStr.contains_char c punctuation)).
  induction u as [| d r IH]; intros cur Hu Hcur; cbn [flat terminals].
  - cbn [filter_chars PyStr.split_from].
    destruct cur as [| a cur']; [reflexivity |].
    now rewrite non_marker_count.
  - cbn [In_string] in Hu.
    assert (Hd : d <> "X"%char) by tauto.
    assert (Hr : ~ In_string "X" r) by tauto.
    rewrite filter_chars_app.
    destruct (is_terminal d).
    + replace (filter_chars keep " XXX ") with " XXX " by reflexivity.
      rewrite split_from_marker.
      assert (E : count_occ string_dec
                    ("XXX" :: PyStr.split_from EmptyString
                                (filter_chars keep
                                   (flat (fun c => if is_terminal c
                                                   then " XXX "
                                                   else String c EmptyString)
                                      r)))
                    "XXX"
                  = 1 + terminals r).
      { cbn [count_occ]. destruct (string_dec "XXX" "XXX"); [| congruence].
        rewrite (IH EmptyString Hr) by (cbn; tauto). reflexivity. }
      destruct cur as [| a cur']; cbn [app]; [exact E |].
      rewrite non_marker_count by exact Hcur. exact E.
    + cbn [filter_chars Nat.add].
      destruct (keep d).
      * cbn [append PyStr.split_from].
        destruct (PyStr.isspace d).
        -- destruct cur as [| a cur'].
           ++ apply IH; [exact Hr | cbn; tauto].
           ++ rewrite non_marker_count by exact Hcur.
              apply IH; [exact Hr | cbn; tauto].
        -- apply IH; [exact Hr |].
           intros H. apply In_string_app in H. cbn [In_string] in H.
           destruct H as [H | [H | []]]; [now apply Hcur | now apply Hd].
      * cbn [append]. now apply IH.
Qed.

Lemma terminals_app a b : terminals (a ++ b) = terminals a + terminals b.
Proof.
  induction a as [| c a IH]; cbn [append terminals]; [reflexivity |].
  rewrite IH. lia.
Qed.

Lemma terminals_undotted INPUT :
  terminals (undotted_text INPUT)
  = list_sum
      (map (fun l => terminals (undot (PyStr.lower (PyStr.rstrip l))))
           INPUT).
Proof.
  induction INPUT as [| l ls IH]; [reflexivity |].
  cbn [undotted_text fold_right map].
  rewrite terminals_app. fold (undotted_text ls). rewrite IH. reflexivity.
Qed.

Lemma marker_occurrences INPUT :
  Z.of_nat (count_occ string_dec (tokens (getData INPUT)) "XXX")
  = getNumberOfTotalSentences (getData INPUT).
Proof.
  unfold getNumberOfTotalSentences, SENTENCE_MARKER. cbn [PyStr.count].
  rewrite getData_count, <- terminals_undotted. f_equal.
  unfold tokens, PyStr.split.
  rewrite remove_punctuation_filter, getData_flat.
  apply marker_tokens; [apply undotted_text_no_X | cbn; tauto].
Qed.

(** X16. In the frequency table built from the normalised text of a file
    the marker is counted once per sentence: when the text has sentences,
    the ranking holds the marker with the sentence count as its count,
    which is why the final loop has to skip it. *)
Theorem marker_ranks_with_sentence_count (INPUT : list string) :
  Z.of_nat (count_occ string_dec (tokens (getData INPUT)) "XXX")
  = getNumberOfTotalSentences (getData INPUT)
  /\ (getNumberOfTotalSentences (getData INPUT) <> 0%Z ->
      In ("XXX", getNumberOfTotalSentences (getData INPUT))
         (ranking (getData INPUT))).
Proof.
  split; [apply marker_occurrences |].
  intros HT. rewrite <- marker_occurrences in HT |- *.
  apply (Permutation_in _ (Permutation_sym (ranking_perm (getData INPUT)))).
  assert (Hin : In "XXX" (keys (count_words (tokens (getData INPUT))))).
  { rewrite keys_count_words, first_seen_In.
    apply (count_occ_In string_dec). lia. }
  unfold keys in Hin. apply in_map_iff in Hin.
  destruct Hin as [[w c] [Hw Hin]]. cbn [fst] in Hw. subst w.
  destruct (count_words_entry _ _ _ Hin) as [-> _]. exact Hin.
Qed.

Lemma marker_ranks_with_sentence_count_witness :
  getNumberOfTotalSentences (getData [example_line]) <> 0%Z
  /\ In ("XXX", getNumberOfTotalSentences (getData [example_line]))
        (ranking (getData [example_line])).
Proof.
  assert (H : getNumberOfTotalSentences (getData [example_line]) <> 0%Z)
    by (vm_compute; discriminate).
  split; [exact H |].
  exact (proj2 (marker_ranks_with_sentence_count [example_line]) H).
Defined.
